(** * Airtable MCP server: the authenticated request gateway

    A shallow embedding of [main.py]: the credential broker client
    ([get_connection_credentials]), the token provider
    ([get_airtable_token], [get_headers]), the request gateway
    ([handle_api_request]) and the parameter encoders of the record
    operations.  Python values are an inductive type, Python [dict]s are
    insertion-ordered association lists, exceptions are an error type and
    the two outbound HTTP calls go through an explicit world with a trace. *)

From Stdlib Require Import String Ascii List ZArith Lia Bool Arith.
From Stdlib Require Import Decimal DecimalString DecimalNat DecimalZ FinFun.
Import ListNotations.

Open Scope list_scope.
Open Scope string_scope.

(** ** Python values *)

Module Py.

(** JSON-shaped Python values.  Numbers are integers; a [str] is a sequence
    of code points below 256, one per [ascii]. *)
#[warnings="-register-all"]
Inductive pyval : Type :=
| PNone
| PBool (b : bool)
| PInt (z : Z)
| PStr (s : string)
| PList (l : list pyval)
| PDict (d : list (string * pyval)).

(** A [dict] keeps its keys in insertion order. *)
Definition dict (V : Type) : Type := list (string * V).

Section Dict.
Context {V : Type}.

Fixpoint dict_get (k : string) (d : dict V) : option V :=
  match d with
  | [] => None
  | (k', v) :: d' => if String.eqb k k' then Some v else dict_get k d'
  end.

Definition dict_contains (k : string) (d : dict V) : bool :=
  match dict_get k d with Some _ => true | None => false end.

(** [d[k] = v]: an existing key keeps its position and takes the new
    value, a new key goes last. *)
Fixpoint dict_set (k : string) (v : V) (d : dict V) : dict V :=
  match d with
  | [] => [(k, v)]
  | (k', v') :: d' =>
      if String.eqb k k' then (k', v) :: d' else (k', v') :: dict_set k v d'
  end.

(** [d.update(other)] *)
Definition dict_update (d other : dict V) : dict V :=
  fold_left (fun acc kv => dict_set (fst kv) (snd kv) acc) other d.

Definition keys (d : dict V) : list string := map fst d.
End Dict.

(** Truth value testing, as [if x:] and [not x] do it. *)
Class Truthy (A : Type) := truth : A -> bool.

#[export] Instance truthy_bool : Truthy bool := fun b => b.
#[export] Instance truthy_Z : Truthy Z := fun z => negb (Z.eqb z 0).
#[export] Instance truthy_string : Truthy string :=
  fun s => match s with EmptyString => false | _ => true end.
#[export] Instance truthy_list {A} : Truthy (list A) :=
  fun l => match l with [] => false | _ => true end.
(** [Optional[T]]: [None] is false, a value is tested as itself. *)
#[export] Instance truthy_option {A} `{Truthy A} : Truthy (option A) :=
  fun o => match o with None => false | Some a => truth a end.
#[export] Instance truthy_pyval : Truthy pyval :=
  fun v =>
    match v with
    | PNone => false
    | PBool b => b
    | PInt z => truth z
    | PStr s => truth s
    | PList l => truth l
    | PDict d => truth d
    end.

(** [all(xs)] *)
Definition all {A} `{Truthy A} (xs : list A) : bool := forallb truth xs.

(** [sep.join(xs)] *)
Fixpoint join (sep : string) (xs : list string) : string :=
  match xs with
  | [] => ""
  | [x] => x
  | x :: xs' => x ++ sep ++ join sep xs'
  end.

(** [needle in haystack] on strings *)
Fixpoint contains (needle haystack : string) : bool :=
  if String.prefix needle haystack then true
  else match haystack with
       | EmptyString => false
       | String _ rest => contains needle rest
       end.

(** Decimal text of an [int], as [str(n)] and [f"{n}"] give it. *)
Definition str_nat (n : nat) : string := NilEmpty.string_of_uint (Nat.to_uint n).
Definition str_int (z : Z) : string := NilEmpty.string_of_int (Z.to_int z).

(** *** [repr] and [str] *)

Definition hex_digit (n : nat) : ascii :=
  nth n (list_ascii_of_string "0123456789abcdef") "0"%char.

(** Code points that [repr] leaves as they are: the printable ones below
    256. *)
Definition printable (c : ascii) : bool :=
  let n := nat_of_ascii c in
  (((32 <=? n) && (n <? 127)) || ((161 <=? n) && negb (n =? 173)))%nat.

Definition repr_char (quote c : ascii) : string :=
  if Ascii.eqb c quote then String "\" (String c "")
  else if Ascii.eqb c "\" then "\\"
  else if Ascii.eqb c "009" then "\t"
  else if Ascii.eqb c "010" then "\n"
  else if Ascii.eqb c "013" then "\r"
  else if printable c then String c ""
  else let n := nat_of_ascii c in
       String "\" (String "x" (String (hex_digit (n / 16))
                                (String (hex_digit (n mod 16)) ""))).

Fixpoint repr_chars (quote : ascii) (s : string) : string :=
  match s with
  | EmptyString => ""
  | String c rest => repr_char quote c ++ repr_chars quote rest
  end.

Definition dquote : ascii := "034"%char.

Definition has_char (c : ascii) (s : string) : bool :=
  existsb (Ascii.eqb c) (list_ascii_of_string s).

(** [repr] of a [str]: single quotes, unless the text has a single quote
    and no double quote. *)
Definition repr_str (s : string) : string :=
  let q := if has_char "'" s && negb (has_char dquote s) then dquote else "'"%char in
  String q (repr_chars q s ++ String q "").

Fixpoint repr (v : pyval) : string :=
  match v with
  | PNone => "None"
  | PBool true => "True"
  | PBool false => "False"
  | PInt z => str_int z
  | PStr s => repr_str s
  | PList l => "[" ++ join ", " (map repr l) ++ "]"
  | PDict d =>
      "{" ++ join ", " (map (fun kv => repr_str (fst kv) ++ ": " ++ repr (snd kv)) d) ++ "}"
  end.

(** [str(v)], which is also what [f"{v}"] inserts. *)
Definition str (v : pyval) : string :=
  match v with
  | PStr s => s
  | _ => repr v
  end.

Definition type_name (v : pyval) : string :=
  match v with
  | PNone => "NoneType"
  | PBool _ => "bool"
  | PInt _ => "int"
  | PStr _ => "str"
  | PList _ => "list"
  | PDict _ => "dict"
  end.

End Py.

Import Py.

(** ** The [requests] library, as far as the gateway uses it *)

Module Requests.

(** What [response.json()] does: the decoded body, or a decode error with
    its text. *)
Inductive json_outcome : Type :=
| JsonValue (v : pyval)
| JsonError (msg : string).

Record Response : Type := mkResponse {
  status_code : Z;
  reason : string;
  url : string;
  content : string;
  text : string;
  json : json_outcome
}.

(** The call a [requests] entry point receives. *)
Record Request : Type := mkRequest {
  method : string;
  req_url : string;
  req_headers : dict string;
  req_params : option (dict pyval);
  req_json : option pyval
}.

(** The exceptions that reach the gateway.  [ConnectionError] stands for the
    transport failures; [RequestsJSONDecodeError] is the error of
    [response.json()], which is a [RequestException] and a
    [json.JSONDecodeError] at once. *)
Inductive exn : Type :=
| ValueError (msg : string)
| TypeError (msg : string)
| AttributeError (msg : string)
| KeyError (key : string)
| ConnectionError (msg : string)
| HTTPError (msg : string) (response : Response)
| RequestsJSONDecodeError (msg : string).

Definition is_RequestException (e : exn) : bool :=
  match e with
  | ConnectionError _ | HTTPError _ _ | RequestsJSONDecodeError _ => true
  | _ => false
  end.

Definition is_JSONDecodeError (e : exn) : bool :=
  match e with RequestsJSONDecodeError _ => true | _ => false end.

(** [str(e)] *)
Definition str_exn (e : exn) : string :=
  match e with
  | ValueError m | TypeError m | AttributeError m
  | ConnectionError m | HTTPError m _ | RequestsJSONDecodeError m => m
  | KeyError k => repr_str k
  end.

Inductive result (A : Type) : Type :=
| Ok (a : A)
| Raise (e : exn).
Arguments Ok {A} a.
Arguments Raise {A} e.

(** [response.raise_for_status()]: only the 4xx and 5xx codes raise. *)
Definition raise_for_status (r : Response) : result unit :=
  let code := status_code r in
  if ((400 <=? code) && (code <? 500))%Z then
    Raise (HTTPError (str_int code ++ " Client Error: " ++ reason r
                        ++ " for url: " ++ url r) r)
  else if ((500 <=? code) && (code <? 600))%Z then
    Raise (HTTPError (str_int code ++ " Server Error: " ++ reason r
                        ++ " for url: " ++ url r) r)
  else Ok tt.

Definition response_json (r : Response) : result pyval :=
  match json r with
  | JsonValue v => Ok v
  | JsonError m => Raise (RequestsJSONDecodeError m)
  end.

(** How a [params] mapping becomes query pairs: [None] is dropped, a list
    gives one pair per element under the same key, anything else one pair.
    Percent-escaping is left out. *)
Definition encode_params (params : dict pyval) : list (string * string) :=
  flat_map
    (fun kv =>
       match snd kv with
       | PNone => []
       | PList vs =>
           flat_map (fun v => match v with
                              | PNone => []
                              | _ => [(fst kv, str v)]
                              end) vs
       | PDict d => map (fun kv' => (fst kv, fst kv')) d
       | v => [(fst kv, str v)]
       end)
    params.

End Requests.

Import Requests.

(** ** Operations of the interpreter that can raise *)

(** [needle in container] for a [str] needle.  The [TypeError] texts here
    and below are CPython's. *)
Definition py_in (needle : string) (container : pyval) : result bool :=
  match container with
  | PDict d => Ok (dict_contains needle d)
  | PList l =>
      Ok (existsb (fun v => match v with
                            | PStr s => String.eqb needle s
                            | _ => false
                            end) l)
  | PStr s => Ok (contains needle s)
  | v => Raise (TypeError ("argument of type '" ++ type_name v ++ "' is not iterable"))
  end.

(** [container[key]] for a [str] key. *)
Definition py_getitem (container : pyval) (key : string) : result pyval :=
  match container with
  | PDict d =>
      match dict_get key d with
      | Some v => Ok v
      | None => Raise (KeyError key)
      end
  | PList _ => Raise (TypeError "list indices must be integers or slices, not str")
  | PStr _ => Raise (TypeError "string indices must be integers, not 'str'")
  | v => Raise (TypeError ("'" ++ type_name v ++ "' object is not subscriptable"))
  end.

(** [obj.get(key, default)]: only a [dict] has the method. *)
Definition py_get (obj : pyval) (key : string) (default : pyval) : result pyval :=
  match obj with
  | PDict d =>
      match dict_get key d with
      | Some v => Ok v
      | None => Ok default
      end
  | v => Raise (AttributeError ("'" ++ type_name v ++ "' object has no attribute 'get'"))
  end.

(** ** The world: environment, network and the trace of calls *)

Inductive event : Type :=
| Enter_get_connection_credentials
| Requests_get (rq : Request)
| Requests_request (rq : Request).

Inductive net_outcome : Type :=
| Responded (r : Response)
| Failed (msg : string).

(** The network answers a request knowing everything that happened before
    it. *)
Record World : Type := mkWorld {
  environ : string -> option string;
  network : list event -> Request -> net_outcome;
  trace : list event
}.

Definition M (A : Type) : Type := World -> result A * World.

Definition ret {A} (a : A) : M A := fun w => (Ok a, w).
Definition raise {A} (e : exn) : M A := fun w => (Raise e, w).
Definition bind {A B} (m : M A) (k : A -> M B) : M B :=
  fun w => match m w with
           | (Ok a, w') => k a w'
           | (Raise e, w') => (Raise e, w')
           end.
Definition lift {A} (r : result A) : M A := fun w => (r, w).

(** [try: body  except ...: handler] *)
Definition try_except {A} (body : M A) (handler : exn -> M A) : M A :=
  fun w => match body w with
           | (Ok a, w') => (Ok a, w')
           | (Raise e, w') => handler e w'
           end.

Notation "x <- m ;; k" := (bind m (fun x => k))
  (at level 61, m at next level, right associativity).
Notation "m ;;; k" := (bind m (fun _ => k))
  (at level 61, right associativity).

(** The world after more calls: only the trace grows. *)
Definition after (w : World) (evs : list event) : World :=
  mkWorld (environ w) (network w) (trace w ++ evs)%list.

Definition emit (e : event) : M unit :=
  fun w => (Ok tt, after w [e]).

Definition os_environ_get (name : string) : M (option string) :=
  fun w => (Ok (environ w name), w).

Definition perform (mk : Request -> event) (rq : Request) : M Response :=
  fun w =>
    let w' := after w [mk rq] in
    match network w (trace w) rq with
    | Responded r => (Ok r, w')
    | Failed msg => (Raise (ConnectionError msg), w')
    end.

(** [requests.get(url, headers=..., params=...)] *)
Definition requests_get (url : string) (headers : dict string)
    (params : dict pyval) : M Response :=
  perform Requests_get (mkRequest "get" url headers (Some params) None).

Record kwargs : Type := mkKwargs {
  kw_params : option (dict pyval);
  kw_json : option pyval;
  kw_headers : option (dict string)
}.

(** [requests.request(method, url, headers=headers, **kwargs)] *)
Definition requests_request (method url : string) (headers : dict string)
    (kw : kwargs) : M Response :=
  perform Requests_request (mkRequest method url headers (kw_params kw) (kw_json kw)).

(** ** Nango authentication *)

Definition AIRTABLE_API_BASE : string := "https://api.airtable.com/v0".

(** [f"{x}"] for an [Optional[str]] *)
Definition fstr (x : option string) : string :=
  match x with Some s => s | None => "None" end.

Definition of_optional (x : option string) : pyval :=
  match x with Some s => PStr s | None => PNone end.

(** The list comprehension of [get_connection_credentials]. *)
Definition missing_vars (connection_id integration_id base_url secret_key : option string)
  : list string :=
  map fst
    (filter (fun p => negb (truth (snd p)))
       [("NANGO_CONNECTION_ID", connection_id);
        ("NANGO_INTEGRATION_ID", integration_id);
        ("NANGO_BASE_URL", base_url);
        ("NANGO_SECRET_KEY", secret_key)]).

Definition get_connection_credentials : M pyval :=
  emit Enter_get_connection_credentials ;;;
  connection_id <- os_environ_get "NANGO_CONNECTION_ID" ;;
  integration_id <- os_environ_get "NANGO_INTEGRATION_ID" ;;
  base_url <- os_environ_get "NANGO_BASE_URL" ;;
  secret_key <- os_environ_get "NANGO_SECRET_KEY" ;;
  if negb (all [connection_id; integration_id; base_url; secret_key]) then
    raise (ValueError ("Missing required Nango environment variables: "
                         ++ join ", " (missing_vars connection_id integration_id
                                         base_url secret_key)))
  else
    let url := fstr base_url ++ "/connection/" ++ fstr connection_id in
    let params := [("provider_config_key", of_optional integration_id);
                   ("refresh_token", PStr "true")] in
    let headers := [("Authorization", "Bearer " ++ fstr secret_key)] in
    try_except
      (response <- requests_get url headers params ;;
       lift (raise_for_status response) ;;;
       lift (response_json response))
      (fun e =>
         if is_RequestException e then
           raise (ValueError ("Failed to get Nango credentials: " ++ str_exn e))
         else if is_JSONDecodeError e then
           raise (ValueError ("Failed to parse Nango response: " ++ str_exn e))
         else raise e).

Definition get_airtable_token : M pyval :=
  try_except
    (credentials <- get_connection_credentials ;;
     nested <- (has_credentials <- lift (py_in "credentials" credentials) ;;
                if has_credentials then
                  inner <- lift (py_getitem credentials "credentials") ;;
                  lift (py_in "access_token" inner)
                else ret false) ;;
     if nested then
       inner <- lift (py_getitem credentials "credentials") ;;
       lift (py_getitem inner "access_token")
     else
       flat <- lift (py_in "access_token" credentials) ;;
       if flat then lift (py_getitem credentials "access_token")
       else raise (ValueError "No access_token found in Nango credentials response"))
    (fun e =>
       raise (ValueError ("Failed to get authentication token from Nango: "
                            ++ str_exn e))).

(** ** Common headers for all requests *)

Definition get_headers : M (dict string) :=
  token <- get_airtable_token ;;
  ret [("Authorization", "Bearer " ++ str token);
       ("Content-Type", "application/json")].

(** ** Error handling wrapper *)

(** The [except requests.exceptions.HTTPError] branch: the message of the
    [ValueError] it raises. *)
Definition http_error_detail (response : Response) : string :=
  let error_detail :=
    "HTTP " ++ str_int (status_code response) ++ ": " ++ reason response in
  let attempt :=
    match response_json response with
    | Raise e => Raise e
    | Ok error_body =>
        match py_get error_body "error" (PDict []) with
        | Raise e => Raise e
        | Ok err =>
            match py_get err "message" (PStr (str error_body)) with
            | Raise e => Raise e
            | Ok message => Ok (error_detail ++ " - " ++ str message)
            end
        end
    end in
  match attempt with
  | Ok detail => detail
  | Raise _ => error_detail ++ " - " ++ text response
  end.

(** [if 'headers' in kwargs: headers.update(kwargs.pop('headers'))] *)
Definition merge_headers (headers : dict string) (kw : kwargs) : dict string :=
  match kw_headers kw with
  | Some extra => dict_update headers extra
  | None => headers
  end.

Definition handle_api_request (method url : string) (kw : kwargs) : M pyval :=
  try_except
    (headers <- get_headers ;;
     let headers := merge_headers headers kw in
     response <- requests_request method url headers kw ;;
     lift (raise_for_status response) ;;;
     if negb (truth (content response)) then
       ret (PDict [("success", PBool true)])
     else
       try_except
         (lift (response_json response))
         (fun e =>
            if is_JSONDecodeError e then
              ret (PDict [("raw_response", PStr (text response))])
            else raise e))
    (fun e =>
       match e with
       | HTTPError _ response => raise (ValueError (http_error_detail response))
       | _ =>
           if is_RequestException e then
             raise (ValueError ("Request failed: " ++ str_exn e))
           else
             raise (ValueError ("Unexpected error: " ++ str_exn e))
       end).

(** ** Request encoders of the tools *)

(** [if x: d = f(x, d)] for an optional argument [x] *)
Definition if_truthy {A} `{Truthy A} (x : option A)
    (f : A -> dict pyval -> dict pyval) (d : dict pyval) : dict pyval :=
  match x with
  | Some a => if truth a then f a d else d
  | None => d
  end.

(** [if x: d = f(x, d)  else: d = g(d)] *)
Definition if_truthy_else {A} `{Truthy A} (x : option A)
    (f : A -> dict pyval -> dict pyval) (g : dict pyval -> dict pyval)
    (d : dict pyval) : dict pyval :=
  match x with
  | Some a => if truth a then f a d else g d
  | None => g d
  end.

(** [if x is not None: d = f(x, d)] *)
Definition if_not_none {A} (x : option A)
    (f : A -> dict pyval -> dict pyval) (d : dict pyval) : dict pyval :=
  match x with
  | Some a => f a d
  | None => d
  end.

(** [for x in xs: d[key] = x] *)
Definition set_each (key : string) (xs : list string) (d : dict pyval) : dict pyval :=
  fold_left (fun params x => dict_set key (PStr x) params) xs d.

Definition enumerate {A} (l : list A) : list (nat * A) :=
  combine (seq 0 (length l)) l.

(** [f"sort[{i}][{key}]"] *)
Definition sort_key (i : nat) (key : string) : string :=
  "sort[" ++ str_nat i ++ "][" ++ key ++ "]".

(** The two nested loops over [enumerate(sort)] and [sort_obj.items()]. *)
Definition set_sort (sort : list (dict string)) (d : dict pyval) : dict pyval :=
  fold_left
    (fun params isort =>
       fold_left
         (fun params kv => dict_set (sort_key (fst isort) (fst kv)) (PStr (snd kv)) params)
         (snd isort) params)
    (enumerate sort) d.

Definition strs (xs : list string) : pyval := PList (map PStr xs).
Definition dicts (xs : list (dict pyval)) : pyval := PList (map PDict xs).

Definition list_records_params
    (fields : option (list string))
    (filter_by_formula : option string)
    (max_records page_size : option Z)
    (sort : option (list (dict string)))
    (view cell_format time_zone user_locale : option string) : dict pyval :=
  let params := [] in
  let params := if_truthy fields (set_each "fields[]") params in
  let params := if_truthy filter_by_formula
                  (fun v => dict_set "filterByFormula" (PStr v)) params in
  let params := if_truthy max_records (fun v => dict_set "maxRecords" (PInt v)) params in
  let params := if_truthy page_size (fun v => dict_set "pageSize" (PInt v)) params in
  let params := if_truthy view (fun v => dict_set "view" (PStr v)) params in
  let params := if_truthy cell_format (fun v => dict_set "cellFormat" (PStr v)) params in
  let params := if_truthy time_zone (fun v => dict_set "timeZone" (PStr v)) params in
  let params := if_truthy user_locale (fun v => dict_set "userLocale" (PStr v)) params in
  let params := if_truthy sort set_sort params in
  params.

Definition list_records (base_id table_id_or_name : string)
    (fields : option (list string))
    (filter_by_formula : option string)
    (max_records page_size : option Z)
    (sort : option (list (dict string)))
    (view cell_format time_zone user_locale : option string) : M pyval :=
  let url := AIRTABLE_API_BASE ++ "/" ++ base_id ++ "/" ++ table_id_or_name in
  handle_api_request "GET" url
    (mkKwargs (Some (list_records_params fields filter_by_formula max_records
                       page_size sort view cell_format time_zone user_locale))
       None None).

Definition get_record_params (cell_format : option string)
    (return_fields_by_field_id : option bool) : dict pyval :=
  let params := [] in
  let params := if_truthy cell_format (fun v => dict_set "cellFormat" (PStr v)) params in
  let params := if_not_none return_fields_by_field_id
                  (fun v => dict_set "returnFieldsByFieldId" (PBool v)) params in
  params.

Definition get_record (base_id table_id_or_name record_id : string)
    (cell_format : option string) (return_fields_by_field_id : option bool) : M pyval :=
  let url := AIRTABLE_API_BASE ++ "/" ++ base_id ++ "/" ++ table_id_or_name
               ++ "/" ++ record_id in
  handle_api_request "GET" url
    (mkKwargs (Some (get_record_params cell_format return_fields_by_field_id)) None None).

Definition create_records_data
    (records : option (list (dict pyval))) (fields : option (dict pyval))
    (typecast return_fields_by_field_id : option bool) : dict pyval :=
  let data := [] in
  let data :=
    if_truthy_else records (fun v => dict_set "records" (dicts v))
      (if_truthy fields (fun v => dict_set "fields" (PDict v))) data in
  let data := if_not_none typecast (fun v => dict_set "typecast" (PBool v)) data in
  let data := if_not_none return_fields_by_field_id
                (fun v => dict_set "returnFieldsByFieldId" (PBool v)) data in
  data.

Definition create_records (base_id table_id_or_name : string)
    (records : option (list (dict pyval))) (fields : option (dict pyval))
    (typecast return_fields_by_field_id : option bool) : M pyval :=
  let url := AIRTABLE_API_BASE ++ "/" ++ base_id ++ "/" ++ table_id_or_name in
  handle_api_request "POST" url
    (mkKwargs None
       (Some (PDict (create_records_data records fields typecast
                       return_fields_by_field_id)))
       None).

Definition update_record_data (fields : dict pyval)
    (typecast return_fields_by_field_id : option bool) : dict pyval :=
  let data := [("fields", PDict fields)] in
  let data := if_not_none typecast (fun v => dict_set "typecast" (PBool v)) data in
  let data := if_not_none return_fields_by_field_id
                (fun v => dict_set "returnFieldsByFieldId" (PBool v)) data in
  data.

Definition update_record (base_id table_id_or_name record_id : string)
    (fields : dict pyval) (typecast return_fields_by_field_id : option bool) : M pyval :=
  let url := AIRTABLE_API_BASE ++ "/" ++ base_id ++ "/" ++ table_id_or_name
               ++ "/" ++ record_id in
  handle_api_request "PATCH" url
    (mkKwargs None
       (Some (PDict (update_record_data fields typecast return_fields_by_field_id)))
       None).

Definition update_multiple_records_data (records : list (dict pyval))
    (typecast return_fields_by_field_id perform_upsert : option bool)
    (fields_to_merge_on : option (list string)) : dict pyval :=
  let data := [("records", dicts records)] in
  let data := if_not_none typecast (fun v => dict_set "typecast" (PBool v)) data in
  let data := if_not_none return_fields_by_field_id
                (fun v => dict_set "returnFieldsByFieldId" (PBool v)) data in
  let data := if_not_none perform_upsert
                (fun v => dict_set "performUpsert" (PBool v)) data in
  let data := if_truthy fields_to_merge_on
                (fun v => dict_set "fieldsToMergeOn" (strs v)) data in
  data.

Definition update_multiple_records (base_id table_id_or_name : string)
    (records : list (dict pyval))
    (typecast return_fields_by_field_id perform_upsert : option bool)
    (fields_to_merge_on : option (list string)) : M pyval :=
  let url := AIRTABLE_API_BASE ++ "/" ++ base_id ++ "/" ++ table_id_or_name in
  handle_api_request "PATCH" url
    (mkKwargs None
       (Some (PDict (update_multiple_records_data records typecast
                       return_fields_by_field_id perform_upsert fields_to_merge_on)))
       None).

Definition delete_multiple_records_params (record_ids : list string) : dict pyval :=
  [("records[]", strs record_ids)].

Definition delete_multiple_records (base_id table_id_or_name : string)
    (record_ids : list string) : M pyval :=
  let url := AIRTABLE_API_BASE ++ "/" ++ base_id ++ "/" ++ table_id_or_name in
  handle_api_request "DELETE" url
    (mkKwargs (Some (delete_multiple_records_params record_ids)) None None).

Definition get_users_by_id_or_email_params
    (user_ids emails include : option (list string)) : dict pyval :=
  let params := [] in
  let params := if_truthy user_ids (set_each "id[]") params in
  let params := if_truthy emails (set_each "email[]") params in
  let params := if_truthy include (fun v => dict_set "include" (strs v)) params in
  params.

Definition get_users_by_id_or_email (enterprise_account_id : string)
    (user_ids emails include : option (list string)) : M pyval :=
  let url := AIRTABLE_API_BASE ++ "/meta/enterpriseAccounts/"
               ++ enterprise_account_id ++ "/users" in
  handle_api_request "GET" url
    (mkKwargs (Some (get_users_by_id_or_email_params user_ids emails include))
       None None).

Definition remove_user_from_enterprise_data (replacement_owner_id : option string)
    (remove_from_descendants is_dry_run : option bool) : dict pyval :=
  let data := [] in
  let data := if_truthy replacement_owner_id
                (fun v => dict_set "replacementOwnerId" (PStr v)) data in
  let data := if_not_none remove_from_descendants
                (fun v => dict_set "removeFromDescendants" (PBool v)) data in
  let data := if_not_none is_dry_run (fun v => dict_set "isDryRun" (PBool v)) data in
  data.

Definition remove_user_from_enterprise (enterprise_account_id user_id : string)
    (replacement_owner_id : option string)
    (remove_from_descendants is_dry_run : option bool) : M pyval :=
  let url := AIRTABLE_API_BASE ++ "/meta/enterpriseAccounts/"
               ++ enterprise_account_id ++ "/users/" ++ user_id ++ "/remove" in
  handle_api_request "POST" url
    (mkKwargs None
       (Some (PDict (remove_user_from_enterprise_data replacement_owner_id
                       remove_from_descendants is_dry_run)))
       None).

(** ** The other tools *)

Definition delete_record (base_id table_id_or_name record_id : string) : M pyval :=
  let url := AIRTABLE_API_BASE ++ "/" ++ base_id ++ "/" ++ table_id_or_name
               ++ "/" ++ record_id in
  handle_api_request "DELETE" url (mkKwargs None None None).

Definition list_bases_params (offset : option string) : dict pyval :=
  let params := [] in
  let params := if_truthy offset (fun v => dict_set "offset" (PStr v)) params in
  params.

Definition list_bases (offset : option string) : M pyval :=
  let url := AIRTABLE_API_BASE ++ "/meta/bases" in
  handle_api_request "GET" url (mkKwargs (Some (list_bases_params offset)) None None).

Definition get_base_schema_params (include : option (list string)) : dict pyval :=
  let params := [] in
  let params := if_truthy include (fun v => dict_set "include" (strs v)) params in
  params.

Definition get_base_schema (base_id : string) (include : option (list string))
  : M pyval :=
  let url := AIRTABLE_API_BASE ++ "/meta/bases/" ++ base_id ++ "/tables" in
  handle_api_request "GET" url
    (mkKwargs (Some (get_base_schema_params include)) None None).

Definition create_base_data (name workspace_id : string) (tables : list (dict pyval))
  : dict pyval :=
  [("name", PStr name); ("workspaceId", PStr workspace_id); ("tables", dicts tables)].

Definition create_base (name workspace_id : string) (tables : list (dict pyval))
  : M pyval :=
  let url := AIRTABLE_API_BASE ++ "/meta/bases" in
  handle_api_request "POST" url
    (mkKwargs None (Some (PDict (create_base_data name workspace_id tables))) None).

Definition get_base_collaborators_params (include : option (list string))
  : dict pyval :=
  let params := [] in
  let params := if_truthy include (fun v => dict_set "include" (strs v)) params in
  params.

Definition get_base_collaborators (base_id : string) (include : option (list string))
  : M pyval :=
  let url := AIRTABLE_API_BASE ++ "/meta/bases/" ++ base_id in
  handle_api_request "GET" url
    (mkKwargs (Some (get_base_collaborators_params include)) None None).

Definition delete_base (base_id : string) : M pyval :=
  let url := AIRTABLE_API_BASE ++ "/meta/bases/" ++ base_id in
  handle_api_request "DELETE" url (mkKwargs None None None).

Definition create_table_data (name : string) (fields : list (dict pyval))
    (description : option string) : dict pyval :=
  let data := [("name", PStr name); ("fields", dicts fields)] in
  let data := if_truthy description (fun v => dict_set "description" (PStr v)) data in
  data.

Definition create_table (base_id name : string) (fields : list (dict pyval))
    (description : option string) : M pyval :=
  let url := AIRTABLE_API_BASE ++ "/meta/bases/" ++ base_id ++ "/tables" in
  handle_api_request "POST" url
    (mkKwargs None (Some (PDict (create_table_data name fields description))) None).

Definition update_table_data (name description : option string) : dict pyval :=
  let data := [] in
  let data := if_not_none name (fun v => dict_set "name" (PStr v)) data in
  let data := if_not_none description (fun v => dict_set "description" (PStr v)) data in
  data.

Definition update_table (base_id table_id_or_name : string)
    (name description : option string) : M pyval :=
  let url := AIRTABLE_API_BASE ++ "/meta/bases/" ++ base_id ++ "/tables/"
               ++ table_id_or_name in
  handle_api_request "PATCH" url
    (mkKwargs None (Some (PDict (update_table_data name description))) None).

Definition create_field_data (name type : string) (description : option string)
    (options : option (dict pyval)) : dict pyval :=
  let data := [("name", PStr name); ("type", PStr type)] in
  let data := if_not_none description (fun v => dict_set "description" (PStr v)) data in
  let data := if_not_none options (fun v => dict_set "options" (PDict v)) data in
  data.

Definition create_field (base_id table_id name type : string)
    (description : option string) (options : option (dict pyval)) : M pyval :=
  let url := AIRTABLE_API_BASE ++ "/meta/bases/" ++ base_id ++ "/tables/"
               ++ table_id ++ "/fields" in
  handle_api_request "POST" url
    (mkKwargs None (Some (PDict (create_field_data name type description options)))
       None).

Definition update_field_data (name description : option string) : dict pyval :=
  let data := [] in
  let data := if_not_none name (fun v => dict_set "name" (PStr v)) data in
  let data := if_not_none description (fun v => dict_set "description" (PStr v)) data in
  data.

Definition update_field (base_id table_id field_id : string)
    (name description : option string) : M pyval :=
  let url := AIRTABLE_API_BASE ++ "/meta/bases/" ++ base_id ++ "/tables/"
               ++ table_id ++ "/fields/" ++ field_id in
  handle_api_request "PATCH" url
    (mkKwargs None (Some (PDict (update_field_data name description))) None).

Definition list_views_params (include : option (list string)) : dict pyval :=
  let params := [] in
  let params := if_truthy include (fun v => dict_set "include" (strs v)) params in
  params.

Definition list_views (base_id : string) (include : option (list string)) : M pyval :=
  let url := AIRTABLE_API_BASE ++ "/meta/bases/" ++ base_id ++ "/views" in
  handle_api_request "GET" url (mkKwargs (Some (list_views_params include)) None None).

Definition get_view_metadata_params (include : option (list string)) : dict pyval :=
  let params := [] in
  let params := if_truthy include (fun v => dict_set "include" (strs v)) params in
  params.

Definition get_view_metadata (base_id view_id : string)
    (include : option (list string)) : M pyval :=
  let url := AIRTABLE_API_BASE ++ "/meta/bases/" ++ base_id ++ "/views/" ++ view_id in
  handle_api_request "GET" url
    (mkKwargs (Some (get_view_metadata_params include)) None None).

Definition list_comments_params (page_size : option Z) (offset : option string)
  : dict pyval :=
  let params := [] in
  let params := if_not_none page_size (fun v => dict_set "pageSize" (PInt v)) params in
  let params := if_truthy offset (fun v => dict_set "offset" (PStr v)) params in
  params.

Definition list_comments (base_id table_id_or_name record_id : string)
    (page_size : option Z) (offset : option string) : M pyval :=
  let url := AIRTABLE_API_BASE ++ "/" ++ base_id ++ "/" ++ table_id_or_name
               ++ "/" ++ record_id ++ "/comments" in
  handle_api_request "GET" url
    (mkKwargs (Some (list_comments_params page_size offset)) None None).

Definition create_comment_data (text : string) (parent_comment_id : option string)
  : dict pyval :=
  let data := [("text", PStr text)] in
  let data := if_truthy parent_comment_id
                (fun v => dict_set "parentCommentId" (PStr v)) data in
  data.

Definition create_comment (base_id table_id_or_name record_id text : string)
    (parent_comment_id : option string) : M pyval :=
  let url := AIRTABLE_API_BASE ++ "/" ++ base_id ++ "/" ++ table_id_or_name
               ++ "/" ++ record_id ++ "/comments" in
  handle_api_request "POST" url
    (mkKwargs None (Some (PDict (create_comment_data text parent_comment_id))) None).

Definition create_webhook_data (notification_url : option string)
    (specification : option (dict pyval)) : dict pyval :=
  let data := [] in
  let data := if_truthy notification_url
                (fun v => dict_set "notificationUrl" (PStr v)) data in
  let data := if_truthy specification
                (fun v => dict_set "specification" (PDict v)) data in
  data.

Definition create_webhook (base_id : string) (notification_url : option string)
    (specification : option (dict pyval)) : M pyval :=
  let url := AIRTABLE_API_BASE ++ "/bases/" ++ base_id ++ "/webhooks" in
  handle_api_request "POST" url
    (mkKwargs None (Some (PDict (create_webhook_data notification_url specification)))
       None).

Definition list_webhook_payloads_params (cursor limit : option Z) : dict pyval :=
  let params := [] in
  let params := if_not_none cursor (fun v => dict_set "cursor" (PInt v)) params in
  let params := if_not_none limit (fun v => dict_set "limit" (PInt v)) params in
  params.

Definition list_webhook_payloads (base_id webhook_id : string)
    (cursor limit : option Z) : M pyval :=
  let url := AIRTABLE_API_BASE ++ "/bases/" ++ base_id ++ "/webhooks/"
               ++ webhook_id ++ "/payloads" in
  handle_api_request "GET" url
    (mkKwargs (Some (list_webhook_payloads_params cursor limit)) None None).

(** The [if user_id: ... elif group_id: ...] of [add_base_collaborator]. *)
Definition add_base_collaborator_data (user_id group_id : option string)
    (permission_level : string) : dict pyval :=
  let collaborators := [] in
  let collaborators :=
    if truth user_id then
      (collaborators ++ [PDict [("user", PDict [("id", of_optional user_id)]);
                                 ("permissionLevel", PStr permission_level)]])%list
    else if truth group_id then
      (collaborators ++ [PDict [("group", PDict [("id", of_optional group_id)]);
                                 ("permissionLevel", PStr permission_level)]])%list
    else collaborators in
  [("collaborators", PList collaborators)].

Definition add_base_collaborator (base_id : string) (user_id group_id : option string)
    (permission_level : string) : M pyval :=
  let url := AIRTABLE_API_BASE ++ "/meta/bases/" ++ base_id ++ "/collaborators" in
  handle_api_request "POST" url
    (mkKwargs None
       (Some (PDict (add_base_collaborator_data user_id group_id permission_level)))
       None).

Definition get_workspace_collaborators_params (include : option (list string))
  : dict pyval :=
  let params := [] in
  let params := if_truthy include (fun v => dict_set "include" (strs v)) params in
  params.

Definition get_enterprise_params (include : option (list string)) : dict pyval :=
  let params := [] in
  let params := if_truthy include (fun v => dict_set "include" (strs v)) params in
  params.

Definition get_user_by_id_params (include : option (list string)) : dict pyval :=
  let params := [] in
  let params := if_truthy include (fun v => dict_set "include" (strs v)) params in
  params.

Definition get_user_info : M pyval :=
  let url := AIRTABLE_API_BASE ++ "/meta/whoami" in
  handle_api_request "GET" url (mkKwargs None None None).

(** ** Vocabulary of the statements *)

(** The pairs of a query that carry a given key, in order. *)
Definition with_key (key : string) (pairs : list (string * string))
  : list (string * string) :=
  filter (fun p => String.eqb key (fst p)) pairs.

Definition occurrences (key : string) (pairs : list (string * string)) : nat :=
  length (with_key key pairs).

(** One entry per element of [sort] and per key of the element, in order. *)
Definition sort_entries (sort : list (dict string)) : dict pyval :=
  flat_map
    (fun isort => map (fun kv => (sort_key (fst isort) (fst kv), PStr (snd kv)))
                    (snd isort))
    (enumerate sort).

Definition sort_pairs (sort : list (dict string)) : list (string * string) :=
  flat_map
    (fun isort => map (fun kv => (sort_key (fst isort) (fst kv), snd kv)) (snd isort))
    (enumerate sort).

(** The entries of the elements from index [n] on. *)
Definition entries_from (n : nat) (sort : list (dict string)) : dict pyval :=
  flat_map
    (fun isort => map (fun kv => (sort_key (fst isort) (fst kv), PStr (snd kv)))
                    (snd isort))
    (combine (seq n (length sort)) sort).

Fixpoint all_chars (p : ascii -> bool) (s : string) : bool :=
  match s with
  | EmptyString => true
  | String c rest => p c && all_chars p rest
  end.

Definition not_bracket (c : ascii) : bool := negb (Ascii.eqb c "]").

(** A mapping as Python holds it: no key twice. *)
Definition well_formed {V} (d : dict V) : Prop := NoDup (keys d).

(** A broker payload that is an object whose [credentials] member, when it
    has one, is an object too. *)
Definition object_payload (payload : pyval) : bool :=
  match payload with
  | PDict d =>
      match dict_get "credentials" d with
      | None | Some (PDict _) => true
      | Some _ => false
      end
  | _ => false
  end.

(** The token by the two accepted shapes: the nested path first, then the
    flat field. *)
Definition token_by_shape (payload : pyval) : option pyval :=
  match payload with
  | PDict d =>
      match match dict_get "credentials" d with
            | Some (PDict c) => dict_get "access_token" c
            | _ => None
            end with
      | Some tok => Some tok
      | None => dict_get "access_token" d
      end
  | _ => None
  end.

(** The shape test of [get_airtable_token] on the payload it received: the
    token it returns, or what it raises before the wrapping. *)
Definition access_token_of (credentials : pyval) : result pyval :=
  match match py_in "credentials" credentials with
        | Raise e => Raise e
        | Ok true =>
            match py_getitem credentials "credentials" with
            | Raise e => Raise e
            | Ok inner => py_in "access_token" inner
            end
        | Ok false => Ok false
        end with
  | Raise e => Raise e
  | Ok true =>
      match py_getitem credentials "credentials" with
      | Raise e => Raise e
      | Ok inner => py_getitem inner "access_token"
      end
  | Ok false =>
      match py_in "access_token" credentials with
      | Raise e => Raise e
      | Ok true => py_getitem credentials "access_token"
      | Ok false =>
          Raise (ValueError "No access_token found in Nango credentials response")
      end
  end.

(** [needle in v] is defined and false. *)
Definition lacks (needle : string) (v : pyval) : bool :=
  match py_in needle v with
  | Ok false => true
  | _ => false
  end.

(** The payloads on which every [in] and every subscript of the shape test
    is defined: an object whose [credentials] member is missing, an object,
    or a text or list without [access_token] in it; and a text or list with
    neither [credentials] nor [access_token] in it. *)
Definition shape_test_defined (payload : pyval) : bool :=
  match payload with
  | PDict d =>
      match dict_get "credentials" d with
      | None | Some (PDict _) => true
      | Some inner => lacks "access_token" inner
      end
  | other => lacks "credentials" other && lacks "access_token" other
  end.

(** The detail part of an HTTP failure message, by the shape of the body. *)
Definition detail_by_shape (response : Response) : string :=
  match json response with
  | JsonError _ => text response
  | JsonValue (PDict body) =>
      match dict_get "error" body with
      | None => str (PDict body)
      | Some (PDict err) =>
          match dict_get "message" err with
          | Some message => str message
          | None => str (PDict body)
          end
      | Some _ => text response
      end
  | JsonValue _ => text response
  end.

Definition no_token_message : string :=
  "Failed to get authentication token from Nango: No access_token found in Nango credentials response".

(** What [handle_api_request] makes of a response it received. *)
Definition response_outcome (r : Response) : result pyval :=
  match raise_for_status r with
  | Raise _ => Raise (ValueError (http_error_detail r))
  | Ok _ =>
      if negb (truth (content r)) then Ok (PDict [("success", PBool true)])
      else match json r with
           | JsonValue v => Ok v
           | JsonError _ => Ok (PDict [("raw_response", PStr (text r))])
           end
  end.

(** A computation that leaves the world as it is. *)
Definition silent {A} (m : M A) : Prop := forall w, snd (m w) = w.

Definition count_event (p : event -> bool) (tr : list event) : nat :=
  length (filter p tr).

Definition is_enter (e : event) : bool :=
  match e with Enter_get_connection_credentials => true | _ => false end.

Definition is_requests_get (e : event) : bool :=
  match e with Requests_get _ => true | _ => false end.

Definition is_requests_request (e : event) : bool :=
  match e with Requests_request _ => true | _ => false end.

(** The request [get_connection_credentials] sends in a world. *)
Definition broker_request (w : World) : Request :=
  mkRequest "get"
    (fstr (environ w "NANGO_BASE_URL") ++ "/connection/"
       ++ fstr (environ w "NANGO_CONNECTION_ID"))
    [("Authorization", "Bearer " ++ fstr (environ w "NANGO_SECRET_KEY"))]
    (Some [("provider_config_key", of_optional (environ w "NANGO_INTEGRATION_ID"));
           ("refresh_token", PStr "true")])
    None.

(** The request [handle_api_request] sends once it holds the token. *)
Definition api_request (method url : string) (kw : kwargs) (token : pyval) : Request :=
  mkRequest method url
    (merge_headers [("Authorization", "Bearer " ++ str token);
                    ("Content-Type", "application/json")] kw)
    (kw_params kw) (kw_json kw).

(** What the broker call yields in a configured world: the payload, or the
    failure as [get_connection_credentials] words it. *)
Definition broker_outcome (w : World) : result pyval :=
  match network w (trace w ++ [Enter_get_connection_credentials])%list
          (broker_request w) with
  | Failed msg => Raise (ValueError ("Failed to get Nango credentials: " ++ msg))
  | Responded r =>
      match raise_for_status r with
      | Raise e => Raise (ValueError ("Failed to get Nango credentials: " ++ str_exn e))
      | Ok _ =>
          match json r with
          | JsonValue v => Ok v
          | JsonError m => Raise (ValueError ("Failed to get Nango credentials: " ++ m))
          end
      end
  end.

Definition configured (w : World) : bool :=
  all [environ w "NANGO_CONNECTION_ID"; environ w "NANGO_INTEGRATION_ID";
       environ w "NANGO_BASE_URL"; environ w "NANGO_SECRET_KEY"].

(** ** Worlds for the examples *)

Module Examples.

Definition env (name : string) : option string :=
  if String.eqb name "NANGO_CONNECTION_ID" then Some "conn-1"
  else if String.eqb name "NANGO_INTEGRATION_ID" then Some "airtable"
  else if String.eqb name "NANGO_BASE_URL" then Some "https://nango.example"
  else if String.eqb name "NANGO_SECRET_KEY" then Some "s3cret"
  else None.

(** Only the integration id and the base URL are set. *)
Definition partial_env (name : string) : option string :=
  if String.eqb name "NANGO_CONNECTION_ID" then Some ""
  else if String.eqb name "NANGO_INTEGRATION_ID" then Some "airtable"
  else if String.eqb name "NANGO_BASE_URL" then Some "https://nango.example"
  else None.

Definition broker_url : string := "https://nango.example/connection/conn-1".

Definition ok_json (v : pyval) : Response :=
  mkResponse 200 "OK" "" "{...}" "{...}" (JsonValue v).

(** The broker answers with [payload], the API with [api]. *)
Definition world (payload : pyval) (api : Response) : World :=
  mkWorld env
    (fun _ rq => if String.eqb (req_url rq) broker_url
                 then Responded (ok_json payload) else Responded api)
    [].

Definition nested_payload : pyval :=
  PDict [("credentials", PDict [("access_token", PStr "tok123")])].
Definition flat_payload : pyval := PDict [("access_token", PStr "tok456")].
Definition text_credentials_payload : pyval :=
  PDict [("credentials", PStr "abc"); ("access_token", PStr "tok456")].
Definition null_credentials_payload : pyval :=
  PDict [("credentials", PNone); ("access_token", PStr "tok456")].

Definition dq : string := String dquote "".

(** The body [{"error": {"message": "Invalid field"}}] with status 422. *)
Definition invalid_field : Response :=
  mkResponse 422 "Unprocessable Entity" "https://api.airtable.com/v0/app1/T"
    "{...}" "{...}"
    (JsonValue (PDict [("error", PDict [("message", PStr "Invalid field")])])).

(** The body [{"error":"NOT_FOUND"}] with status 404. *)
Definition not_found_text : string :=
  "{" ++ dq ++ "error" ++ dq ++ ":" ++ dq ++ "NOT_FOUND" ++ dq ++ "}".
Definition not_found : Response :=
  mkResponse 404 "Not Found" "https://api.airtable.com/v0/app1/T"
    not_found_text not_found_text
    (JsonValue (PDict [("error", PStr "NOT_FOUND")])).

(** A 304 answer with no body. *)
Definition not_modified : Response :=
  mkResponse 304 "Not Modified" "https://api.airtable.com/v0/app1/T"
    "" "" (JsonError "Expecting value: line 1 column 1 (char 0)").


(** A 200 answer with no body. *)
Definition empty_ok : Response :=
  mkResponse 200 "OK" "https://api.airtable.com/v0/app1/T"
    "" "" (JsonError "Expecting value: line 1 column 1 (char 0)").

Definition records_url : string := "https://api.airtable.com/v0/app1/T".

Definition no_kwargs : kwargs := mkKwargs None None None.

(** A broker that hands out a new token at every call: the token carries
    the length of the trace at the time of the call. *)
Definition rotating_world : World :=
  mkWorld env
    (fun tr rq =>
       if String.eqb (req_url rq) broker_url
       then Responded (ok_json (PDict [("access_token",
                                        PStr ("tok" ++ str_nat (length tr)))]))
       else Responded (ok_json (PDict [("records", PList [])])))
    [].

(** The broker answers with [payload]; the API cannot be reached. *)
Definition offline_api_world (payload : pyval) : World :=
  mkWorld env
    (fun _ rq => if String.eqb (req_url rq) broker_url
                 then Responded (ok_json payload) else Failed "Connection refused")
    [].

(** The broker answers every request with [r]. *)
Definition broker_world (r : Response) : World :=
  mkWorld env (fun _ _ => Responded r) [].

(** Nothing can be reached. *)
Definition offline_world : World :=
  mkWorld env (fun _ _ => Failed "Connection refused") [].

Definition unauthorized : Response :=
  mkResponse 401 "Unauthorized" broker_url "{...}" "{...}"
    (JsonValue (PDict [("error", PStr "unauthorized")])).

(** A world with [partial_env], where nothing answers. *)
Definition unconfigured_world : World :=
  mkWorld partial_env (fun _ _ => Failed "unreachable") [].

End Examples.

(** * Facts about mappings *)

Section DictFacts.
Context {V : Type}.
Implicit Types (d : dict V) (k : string) (v : V).

Lemma dict_get_set_same k v d : dict_get k (dict_set k v d) = Some v.
Proof.
  induction d as [|[k' v'] d IH]; simpl.
  - now rewrite String.eqb_refl.
  - destruct (String.eqb k k') eqn:E; simpl; rewrite E; auto.
Qed.

Lemma dict_get_set_other k k' v d :
  String.eqb k k' = false -> dict_get k (dict_set k' v d) = dict_get k d.
Proof.
  intros Hne. induction d as [|[k0 v0] d IH]; simpl.
  - now rewrite Hne.
  - destruct (String.eqb k' k0) eqn:E; simpl.
    + apply String.eqb_eq in E; subst k0. now rewrite Hne.
    + now rewrite IH.
Qed.

Lemma dict_set_fresh k v d : ~ In k (keys d) -> dict_set k v d = (d ++ [(k, v)])%list.
Proof.
  induction d as [|[k' v'] d IH]; simpl; [reflexivity|].
  intros Hn. destruct (String.eqb k k') eqn:E.
  - apply String.eqb_eq in E. subst. tauto.
  - rewrite IH; tauto.
Qed.

Lemma keys_dict_set k v d :
  keys (dict_set k v d) = if existsb (String.eqb k) (keys d) then keys d else (keys d ++ [k])%list.
Proof.
  induction d as [|[k' v'] d IH]; simpl; [reflexivity|].
  destruct (String.eqb k k') eqn:E; simpl; [reflexivity|].
  rewrite IH. now destruct (existsb _ _).
Qed.

Lemma NoDup_keys_dict_set k v d : NoDup (keys d) -> NoDup (keys (dict_set k v d)).
Proof.
  intros Hnd. rewrite keys_dict_set.
  destruct (existsb _ _) eqn:E; [assumption|].
  apply NoDup_app; [assumption|repeat constructor; simpl; tauto|].
  intros x Hx [E'|[]]. subst x.
  assert (existsb (String.eqb k) (keys d) = true) as E'; [|congruence].
  apply existsb_exists. exists k. split; [assumption|apply String.eqb_refl].
Qed.
End DictFacts.

(** ** Falsy and unset arguments of [list_records] *)

(** C10: in [list_records] a falsy value of an optional argument
    ([max_records = 0], [page_size = 0], [filter_by_formula] empty, an empty
    [fields] or [sort] list) gives the same query parameters as leaving the
    argument out, whatever the other arguments are. *)
Theorem list_records_falsy_as_unset :
  forall fields filter_by_formula max_records page_size sort
         view cell_format time_zone user_locale,
    list_records_params fields filter_by_formula (Some 0%Z) page_size sort
        view cell_format time_zone user_locale
      = list_records_params fields filter_by_formula None page_size sort
          view cell_format time_zone user_locale
    /\ list_records_params fields filter_by_formula max_records (Some 0%Z) sort
         view cell_format time_zone user_locale
       = list_records_params fields filter_by_formula max_records None sort
           view cell_format time_zone user_locale
    /\ list_records_params fields (Some "") max_records page_size sort
         view cell_format time_zone user_locale
       = list_records_params fields None max_records page_size sort
           view cell_format time_zone user_locale
    /\ list_records_params (Some []) filter_by_formula max_records page_size sort
         view cell_format time_zone user_locale
       = list_records_params None filter_by_formula max_records page_size sort
           view cell_format time_zone user_locale
    /\ list_records_params fields filter_by_formula max_records page_size (Some [])
         view cell_format time_zone user_locale
       = list_records_params fields filter_by_formula max_records page_size None
           view cell_format time_zone user_locale
    /\ list_records_params (Some []) (Some "") (Some 0%Z) (Some 0%Z) (Some [])
         view cell_format time_zone user_locale
       = list_records_params None None None None None
           view cell_format time_zone user_locale.
Proof.
  intros. unfold list_records_params. repeat split; reflexivity.
Qed.

(** ** Boolean flags *)

(** C8: each optional boolean argument of the record operations is written
    under its key when it is [True] and when it is [False] alike, and the
    key is left out only when the argument is [None]. *)
Theorem boolean_flags_false_is_sent :
  forall (b : bool),
    (forall cell_format,
        dict_get "returnFieldsByFieldId" (get_record_params cell_format (Some b))
          = Some (PBool b)
        /\ with_key "returnFieldsByFieldId"
             (encode_params (get_record_params cell_format (Some b)))
           = [("returnFieldsByFieldId", str (PBool b))]
        /\ dict_contains "returnFieldsByFieldId" (get_record_params cell_format None)
           = false)
    /\ (forall records fields other,
           dict_get "typecast" (create_records_data records fields (Some b) other)
             = Some (PBool b)
           /\ dict_contains "typecast" (create_records_data records fields None other)
              = false
           /\ dict_get "returnFieldsByFieldId"
                (create_records_data records fields other (Some b)) = Some (PBool b)
           /\ dict_contains "returnFieldsByFieldId"
                (create_records_data records fields other None) = false)
    /\ (forall fields other,
           dict_get "typecast" (update_record_data fields (Some b) other)
             = Some (PBool b)
           /\ dict_contains "typecast" (update_record_data fields None other) = false
           /\ dict_get "returnFieldsByFieldId"
                (update_record_data fields other (Some b)) = Some (PBool b)
           /\ dict_contains "returnFieldsByFieldId"
                (update_record_data fields other None) = false)
    /\ (forall records o1 o2 merge_on,
           dict_get "typecast"
             (update_multiple_records_data records (Some b) o1 o2 merge_on)
             = Some (PBool b)
           /\ dict_contains "typecast"
                (update_multiple_records_data records None o1 o2 merge_on) = false
           /\ dict_get "returnFieldsByFieldId"
                (update_multiple_records_data records o1 (Some b) o2 merge_on)
              = Some (PBool b)
           /\ dict_contains "returnFieldsByFieldId"
                (update_multiple_records_data records o1 None o2 merge_on) = false
           /\ dict_get "performUpsert"
                (update_multiple_records_data records o1 o2 (Some b) merge_on)
              = Some (PBool b)
           /\ dict_contains "performUpsert"
                (update_multiple_records_data records o1 o2 None merge_on) = false)
    /\ (forall owner other,
           dict_get "removeFromDescendants"
             (remove_user_from_enterprise_data owner (Some b) other) = Some (PBool b)
           /\ dict_contains "removeFromDescendants"
                (remove_user_from_enterprise_data owner None other) = false
           /\ dict_get "isDryRun"
                (remove_user_from_enterprise_data owner other (Some b)) = Some (PBool b)
           /\ dict_contains "isDryRun"
                (remove_user_from_enterprise_data owner other None) = false).
Proof.
  intros b. repeat apply conj; intros.
  - destruct cell_format as [[|? ?]|]; destruct b; repeat split; reflexivity.
  - destruct records as [[|? ?]|], fields as [[|? ?]|], other as [?|];
      repeat split; reflexivity.
  - destruct other as [?|]; repeat split; reflexivity.
  - destruct o1 as [?|], o2 as [?|], merge_on as [[|? ?]|]; repeat split; reflexivity.
  - destruct owner as [[|? ?]|], other as [?|]; repeat split; reflexivity.
Qed.

(** ** Batch and single-record form of [create_records] *)

(** C7: the body of [create_records] never has both [records] and [fields].
    A non-empty batch goes under [records] and the [fields] argument is then
    ignored; a [fields] mapping is written only when no batch was given (the
    batch is [None] or empty), and then the non-empty mapping goes under
    [fields]. *)
Theorem create_records_one_form :
  forall records fields typecast return_fields_by_field_id,
    let data := create_records_data records fields typecast return_fields_by_field_id in
    dict_get "records" data
      = match records with
        | Some (r :: rs) => Some (dicts (r :: rs))
        | _ => None
        end
    /\ dict_get "fields" data
       = match records with
         | Some (_ :: _) => None
         | _ => match fields with
                | Some (f :: fs) => Some (PDict (f :: fs))
                | _ => None
                end
         end
    /\ dict_contains "records" data && dict_contains "fields" data = false.
Proof.
  intros records fields typecast rf.
  destruct records as [[|? ?]|], fields as [[|? ?]|], typecast as [?|], rf as [?|];
    repeat split; reflexivity.
Qed.

(** ** Loops that write into a mapping *)

Section Folds.
Context {A V : Type} (kf : A -> string) (vf : A -> V).

Lemma fold_set_get_other (k : string) (l : list A) (d : dict V) :
  (forall x, In x l -> String.eqb k (kf x) = false) ->
  dict_get k (fold_left (fun acc x => dict_set (kf x) (vf x) acc) l d) = dict_get k d.
Proof.
  revert d. induction l as [|x l IH]; intros d Hk; simpl; [reflexivity|].
  rewrite IH by (intros; apply Hk; now right).
  apply dict_get_set_other, Hk. now left.
Qed.

Lemma fold_set_NoDup (l : list A) (d : dict V) :
  NoDup (keys d) ->
  NoDup (keys (fold_left (fun acc x => dict_set (kf x) (vf x) acc) l d)).
Proof.
  revert d. induction l as [|x l IH]; intros d Hd; simpl; [assumption|].
  apply IH, NoDup_keys_dict_set, Hd.
Qed.

(** Writing keys that are new and distinct appends them in order. *)
Lemma fold_set_fresh (l : list A) (d : dict V) :
  NoDup (map kf l) ->
  (forall x, In x l -> ~ In (kf x) (keys d)) ->
  fold_left (fun acc x => dict_set (kf x) (vf x) acc) l d
    = (d ++ map (fun x => (kf x, vf x)) l)%list.
Proof.
  revert d. induction l as [|x l IH]; intros d Hnd Hfresh; simpl.
  - now rewrite app_nil_r.
  - inversion Hnd as [|? ? Hx Hl]; subst.
    rewrite dict_set_fresh by (apply Hfresh; now left).
    rewrite IH; [now rewrite <- app_assoc| assumption |].
    intros y Hy. unfold keys. rewrite map_app, in_app_iff. simpl.
    intros [Hin|[Heq|[]]].
    + apply (Hfresh y); [now right|exact Hin].
    + apply Hx. rewrite Heq. now apply in_map.
Qed.
End Folds.

Lemma last_cons {A} (x y : A) (ys : list A) : last (y :: ys) x = last ys y.
Proof.
  revert x y. induction ys as [|z zs IH]; intros x y; [reflexivity|].
  change (last (y :: z :: zs) x) with (last (z :: zs) x).
  now rewrite (IH x z), (IH y z).
Qed.

Lemma set_each_get (key : string) (x : string) (xs : list string) (d : dict pyval) :
  dict_get key (set_each key (x :: xs) d) = Some (PStr (last xs x)).
Proof.
  unfold set_each. revert x d.
  induction xs as [|y ys IH]; intros x d.
  - simpl. apply dict_get_set_same.
  - change (fold_left _ (x :: y :: ys) d)
      with (fold_left (fun params x0 => dict_set key (PStr x0) params) (y :: ys)
              (dict_set key (PStr x) d)).
    rewrite IH. now rewrite last_cons.
Qed.

Lemma set_each_get_other (k key : string) (xs : list string) (d : dict pyval) :
  String.eqb k key = false -> dict_get k (set_each key xs d) = dict_get k d.
Proof.
  intros Hne. unfold set_each.
  apply (fold_set_get_other (fun _ => key) PStr). auto.
Qed.

Lemma set_each_NoDup (key : string) (xs : list string) (d : dict pyval) :
  NoDup (keys d) -> NoDup (keys (set_each key xs d)).
Proof. apply (fold_set_NoDup (fun _ => key) PStr). Qed.

Lemma sort_key_prefix (i : nat) (key : string) :
  String.prefix "sort[" (sort_key i key) = true.
Proof.
  unfold sort_key. simpl. now destruct (str_nat i ++ _).
Qed.

Lemma set_sort_get_other (k : string) (sort : list (dict string)) (d : dict pyval) :
  String.prefix "sort[" k = false -> dict_get k (set_sort sort d) = dict_get k d.
Proof.
  intros Hk. unfold set_sort. generalize (enumerate sort). intros l. revert d.
  induction l as [|[i obj] l IH]; intros d; simpl; [reflexivity|].
  rewrite IH.
  apply (fold_set_get_other (fun kv => sort_key i (fst kv)) (fun kv => PStr (snd kv))).
  intros kv _. apply not_true_is_false. intros E. apply String.eqb_eq in E.
  subst k. rewrite sort_key_prefix in Hk. discriminate Hk.
Qed.

Lemma set_sort_NoDup (sort : list (dict string)) (d : dict pyval) :
  NoDup (keys d) -> NoDup (keys (set_sort sort d)).
Proof.
  unfold set_sort. generalize (enumerate sort). intros l. revert d.
  induction l as [|[i obj] l IH]; intros d Hd; simpl; [assumption|].
  apply IH.
  apply (fold_set_NoDup (fun kv => sort_key i (fst kv)) (fun kv => PStr (snd kv))), Hd.
Qed.

Lemma if_truthy_get_other {A} `{Truthy A} (k : string) (x : option A)
    (f : A -> dict pyval -> dict pyval) (d : dict pyval) :
  (forall a d', dict_get k (f a d') = dict_get k d') ->
  dict_get k (if_truthy x f d) = dict_get k d.
Proof.
  intros Hf. unfold if_truthy. destruct x as [a|]; [|reflexivity].
  destruct (truth a); auto.
Qed.

Lemma if_truthy_NoDup {A} `{Truthy A} (x : option A)
    (f : A -> dict pyval -> dict pyval) (d : dict pyval) :
  (forall a d', NoDup (keys d') -> NoDup (keys (f a d'))) ->
  NoDup (keys d) -> NoDup (keys (if_truthy x f d)).
Proof.
  intros Hf Hd. unfold if_truthy. destruct x as [a|]; [|assumption].
  destruct (truth a); auto.
Qed.

Lemma encode_params_app (d1 d2 : dict pyval) :
  encode_params (d1 ++ d2)%list = (encode_params d1 ++ encode_params d2)%list.
Proof. unfold encode_params. apply flat_map_app. Qed.

Lemma with_key_app (k : string) (p1 p2 : list (string * string)) :
  with_key k (p1 ++ p2)%list = (with_key k p1 ++ with_key k p2)%list.
Proof. unfold with_key. apply filter_app. Qed.

Lemma with_key_entry_other (k k' : string) (v : pyval) :
  String.eqb k k' = false -> with_key k (encode_params [(k', v)]) = [].
Proof.
  intros Hne. unfold with_key, encode_params. simpl. rewrite app_nil_r.
  destruct v as [| | | |vs|dd]; simpl; try (now rewrite Hne); try reflexivity.
  - induction vs as [|v vs IHv]; simpl; [reflexivity|].
    rewrite filter_app, IHv, app_nil_r. destruct v; simpl; now rewrite ?Hne.
  - induction dd as [|kv dd IHd]; simpl; [reflexivity|]. now rewrite Hne.
Qed.

Lemma with_key_absent (k : string) (d : dict pyval) :
  ~ In k (keys d) -> with_key k (encode_params d) = [].
Proof.
  induction d as [|[k' v'] d IH]; intros Hk; [reflexivity|].
  change ((k', v') :: d) with ([(k', v')] ++ d)%list.
  rewrite encode_params_app, with_key_app, IH by (simpl in Hk; tauto).
  rewrite with_key_entry_other; [reflexivity|].
  apply not_true_is_false. intros E. apply String.eqb_eq in E.
  subst. simpl in Hk. tauto.
Qed.

(** A mapping entry with a [str] value is one pair of the query. *)
Lemma with_key_encode_params (k s : string) (d : dict pyval) :
  NoDup (keys d) -> dict_get k d = Some (PStr s) ->
  with_key k (encode_params d) = [(k, s)].
Proof.
  induction d as [|[k' v'] d IH]; intros Hnd Hget; [discriminate|].
  inversion Hnd as [|? ? Hk' Hd]; subst.
  change ((k', v') :: d) with ([(k', v')] ++ d)%list.
  rewrite encode_params_app, with_key_app.
  simpl in Hget.
  destruct (String.eqb k k') eqn:E.
  - apply String.eqb_eq in E. subst k'. injection Hget as ->.
    rewrite (with_key_absent k d) by exact Hk'.
    unfold with_key, encode_params. simpl. now rewrite String.eqb_refl.
  - rewrite with_key_entry_other by assumption. apply IH; assumption.
Qed.

(** ** Query parameters of [list_records] and [get_users_by_id_or_email] *)

Ltac keys_stay_distinct :=
  repeat (apply if_truthy_NoDup;
          [intros;
           first [apply NoDup_keys_dict_set | apply set_each_NoDup
                 | apply set_sort_NoDup]; assumption|]);
  constructor.

Ltac skip_other_keys :=
  repeat (rewrite if_truthy_get_other;
          [|intros; first [now apply dict_get_set_other
                          | now apply set_each_get_other
                          | now apply set_sort_get_other]]).

Lemma list_records_params_NoDup fields filter_by_formula max_records page_size sort
    view cell_format time_zone user_locale :
  NoDup (keys (list_records_params fields filter_by_formula max_records page_size
                 sort view cell_format time_zone user_locale)).
Proof. unfold list_records_params. keys_stay_distinct. Qed.

Lemma get_users_params_NoDup user_ids emails include :
  NoDup (keys (get_users_by_id_or_email_params user_ids emails include)).
Proof. unfold get_users_by_id_or_email_params. keys_stay_distinct. Qed.

(** C1 (the code departs from it): the loops [params["fields[]"] = field],
    [params["id[]"] = user_id] and [params["email[]"] = email] write one key
    of a mapping over and over, so the query of a non-empty list has a single
    pair under the bracketed key, with the last element; [fields = ["Name",
    "Status"]] gives the one pair [fields[]=Status].  The list passed whole
    by [delete_multiple_records] does give one pair per element. *)
Theorem repeated_key_keeps_last_only :
  (forall f fs filter_by_formula max_records page_size sort
          view cell_format time_zone user_locale,
      with_key "fields[]"
        (encode_params (list_records_params (Some (f :: fs)) filter_by_formula
                          max_records page_size sort view cell_format time_zone
                          user_locale))
      = [("fields[]", last fs f)])
  /\ (forall u us emails include,
         with_key "id[]"
           (encode_params (get_users_by_id_or_email_params (Some (u :: us)) emails
                             include))
         = [("id[]", last us u)])
  /\ (forall user_ids e es include,
         with_key "email[]"
           (encode_params (get_users_by_id_or_email_params user_ids (Some (e :: es))
                             include))
         = [("email[]", last es e)])
  /\ encode_params (list_records_params (Some ["Name"; "Status"]) None None None
                      None None None None None)
     = [("fields[]", "Status")]
  /\ occurrences "fields[]"
       (encode_params (list_records_params (Some ["Name"; "Status"]) None None None
                         None None None None None)) = 1
  /\ encode_params (delete_multiple_records_params ["Name"; "Status"])
     = [("records[]", "Name"); ("records[]", "Status")].
Proof.
  repeat apply conj; try reflexivity; intros.
  - apply with_key_encode_params; [apply list_records_params_NoDup|].
    unfold list_records_params. skip_other_keys.
    apply set_each_get.
  - apply with_key_encode_params; [apply get_users_params_NoDup|].
    unfold get_users_by_id_or_email_params. skip_other_keys.
    apply set_each_get.
  - apply with_key_encode_params; [apply get_users_params_NoDup|].
    unfold get_users_by_id_or_email_params. skip_other_keys.
    destruct user_ids as [[|? ?]|]; apply set_each_get.
Qed.

(** ** The keys [sort[i][key]] *)

Lemma string_of_uint_no_bracket (d : uint) :
  all_chars not_bracket (NilEmpty.string_of_uint d) = true.
Proof. induction d; simpl; auto. Qed.

Lemma str_nat_inj (i j : nat) : str_nat i = str_nat j -> i = j.
Proof.
  unfold str_nat. intros E. apply Unsigned.to_uint_inj.
  assert (Some (Nat.to_uint i) = Some (Nat.to_uint j)) as H; [|now injection H].
  now rewrite <- !NilEmpty.usu, E.
Qed.

Lemma split_at_bracket (a b x y : string) :
  all_chars not_bracket a = true -> all_chars not_bracket b = true ->
  a ++ String "]" x = b ++ String "]" y -> a = b /\ x = y.
Proof.
  revert b. induction a as [|c a IH]; intros [|c' b]; simpl; intros Ha Hb E.
  - now injection E.
  - injection E as <- _. discriminate Hb.
  - injection E as -> _. discriminate Ha.
  - injection E as -> E. apply andb_prop in Ha, Hb.
    destruct (IH b) as [-> ->]; tauto.
Qed.

Lemma append_bracket_inj (k k' : string) : k ++ "]" = k' ++ "]" -> k = k'.
Proof.
  revert k'. induction k as [|c k IH]; intros [|c' k']; simpl; intros E.
  - reflexivity.
  - injection E as _ E. destruct k'; discriminate E.
  - injection E as _ E. destruct k; discriminate E.
  - injection E as -> E. f_equal. now apply IH.
Qed.

Lemma sort_key_inj (i j : nat) (k k' : string) :
  sort_key i k = sort_key j k' -> i = j /\ k = k'.
Proof.
  unfold sort_key. simpl. intros E. injection E as E.
  apply split_at_bracket in E; try apply string_of_uint_no_bracket.
  destruct E as [Hi Hk]. injection Hk as Hk.
  split; [now apply str_nat_inj | now apply append_bracket_inj].
Qed.

Section FoldShapes.
Context {A B C : Type}.

Lemma fold_left_flat_map (f : C -> B -> C) (g : A -> list B) (l : list A) (c : C) :
  fold_left f (flat_map g l) c = fold_left (fun acc x => fold_left f (g x) acc) l c.
Proof.
  revert c. induction l as [|x l IH]; intros c; simpl; [reflexivity|].
  now rewrite fold_left_app, IH.
Qed.

Lemma fold_left_map (f : C -> B -> C) (h : A -> B) (l : list A) (c : C) :
  fold_left f (map h l) c = fold_left (fun acc x => f acc (h x)) l c.
Proof.
  revert c. induction l as [|x l IH]; intros c; simpl; [reflexivity|]. apply IH.
Qed.
End FoldShapes.

Lemma entries_from_keys (n : nat) (sort : list (dict string)) (k : string) :
  In k (keys (entries_from n sort)) ->
  exists i key, k = sort_key i key /\ n <= i.
Proof.
  revert n. induction sort as [|obj sort IH]; intros n; simpl; [tauto|].
  unfold entries_from, keys. simpl. rewrite map_app, in_app_iff, map_map. simpl.
  intros [Hin|Hin].
  - apply in_map_iff in Hin. destruct Hin as [kv [<- _]]. eauto.
  - destruct (IH (S n) Hin) as [i [key [-> Hle]]]. exists i, key. split; [easy|lia].
Qed.

Lemma entries_from_NoDup (n : nat) (sort : list (dict string)) :
  Forall well_formed sort -> NoDup (keys (entries_from n sort)).
Proof.
  revert n. induction sort as [|obj sort IH]; intros n Hwf; [constructor|].
  inversion Hwf as [|? ? Hobj Hrest]; subst.
  unfold entries_from, keys. simpl. rewrite map_app, map_map. simpl.
  apply NoDup_app.
  - rewrite <- (map_map fst (sort_key n)).
    apply Injective_map_NoDup; [|exact Hobj].
    intros k k' E. now apply sort_key_inj in E.
  - apply (IH (S n) Hrest).
  - intros k Hk Hk'. apply in_map_iff in Hk. destruct Hk as [kv [<- _]].
    destruct (entries_from_keys (S n) sort _ Hk') as [i [key [E Hle]]].
    apply sort_key_inj in E. lia.
Qed.

Lemma set_sort_appends (sort : list (dict string)) (d : dict pyval) :
  Forall well_formed sort ->
  Forall (fun k => String.prefix "sort[" k = false) (keys d) ->
  set_sort sort d = (d ++ sort_entries sort)%list.
Proof.
  intros Hwf Hd.
  assert (E : set_sort sort d
              = fold_left (fun acc e => dict_set (fst e) (snd e) acc)
                  (sort_entries sort) d).
  { unfold set_sort, sort_entries. rewrite fold_left_flat_map.
    clear Hd. generalize (enumerate sort) as l. intros l. revert d.
    induction l as [|[i obj] l IH]; intros d; simpl; [reflexivity|].
    rewrite fold_left_map. simpl. apply IH. }
  rewrite E.
  rewrite (fold_set_fresh fst snd).
  - f_equal. rewrite <- (map_id (sort_entries sort)) at 2.
    apply map_ext. now intros [? ?].
  - apply (entries_from_NoDup 0 sort Hwf).
  - intros [k v] Hin Hk. simpl in Hk.
    rewrite Forall_forall in Hd. specialize (Hd k Hk).
    destruct (entries_from_keys 0 sort k) as [i [key [-> _]]].
    + unfold keys. change k with (fst (k, v)). now apply in_map.
    + rewrite sort_key_prefix in Hd. discriminate Hd.
Qed.

Section KeysInvariant.
Variable P : string -> Prop.

Lemma Forall_keys_dict_set {V} (k : string) (v : V) (d : dict V) :
  P k -> Forall P (keys d) -> Forall P (keys (dict_set k v d)).
Proof.
  intros Hk Hd. rewrite keys_dict_set. destruct (existsb _ _); [assumption|].
  apply Forall_app. split; [assumption|now constructor].
Qed.

Lemma Forall_keys_set_each (key : string) (xs : list string) (d : dict pyval) :
  P key -> Forall P (keys d) -> Forall P (keys (set_each key xs d)).
Proof.
  intros Hk. unfold set_each. revert d.
  induction xs as [|x xs IH]; intros d Hd; simpl; [assumption|].
  now apply IH, Forall_keys_dict_set.
Qed.

Lemma Forall_keys_if_truthy {A} `{Truthy A} (x : option A)
    (f : A -> dict pyval -> dict pyval) (d : dict pyval) :
  (forall a d', Forall P (keys d') -> Forall P (keys (f a d'))) ->
  Forall P (keys d) -> Forall P (keys (if_truthy x f d)).
Proof.
  intros Hf Hd. unfold if_truthy. destruct x as [a|]; [|assumption].
  destruct (truth a); auto.
Qed.
End KeysInvariant.

Lemma list_records_params_keys_not_sort fields filter_by_formula max_records page_size
    view cell_format time_zone user_locale :
  Forall (fun k => String.prefix "sort[" k = false)
    (keys (list_records_params fields filter_by_formula max_records page_size None
             view cell_format time_zone user_locale)).
Proof.
  unfold list_records_params.
  change (if_truthy None set_sort ?d) with d.
  repeat (apply Forall_keys_if_truthy;
          [intros;
           first [now apply Forall_keys_dict_set | now apply Forall_keys_set_each]|]).
  constructor.
Qed.

Lemma encode_sort_entries (sort : list (dict string)) :
  encode_params (sort_entries sort) = sort_pairs sort.
Proof.
  unfold sort_entries, sort_pairs. generalize (enumerate sort) as l.
  induction l as [|[i obj] l IH]; simpl; [reflexivity|].
  rewrite encode_params_app, IH. f_equal.
  clear IH. induction obj as [|[k v] obj IH]; [reflexivity|].
  simpl. f_equal. exact IH.
Qed.

Lemma enumerate_nth {A} (l : list A) (n i : nat) (x : A) :
  nth_error l i = Some x -> In (n + i, x) (combine (seq n (length l)) l).
Proof.
  revert n i. induction l as [|y l IH]; intros n [|i]; simpl; try discriminate.
  - intros [= ->]. left. f_equal. lia.
  - intros Hi. right. replace (n + S i) with (S n + i) by lia. now apply IH.
Qed.

(** C6: for a [sort] list whose elements are mappings, [list_records] writes,
    after the other parameters, one query key [sort[i][k]] per element [i]
    and key [k] of it, with the element's value, elements in order and keys
    in each element's own order; [sort = [{"field": "Name", "direction":
    "asc"}]] gives [sort[0][field]=Name] and [sort[0][direction]=asc]. *)
Theorem sort_is_encoded_by_index_and_key :
  forall sort fields filter_by_formula max_records page_size
         view cell_format time_zone user_locale,
    Forall well_formed sort ->
    let without := list_records_params fields filter_by_formula max_records page_size
                     None view cell_format time_zone user_locale in
    let params := list_records_params fields filter_by_formula max_records page_size
                    (Some sort) view cell_format time_zone user_locale in
    params = (without ++ sort_entries sort)%list
    /\ encode_params params = (encode_params without ++ sort_pairs sort)%list
    /\ (forall i sort_obj k v,
           nth_error sort i = Some sort_obj -> In (k, v) sort_obj ->
           In (sort_key i k, v) (encode_params params))
    /\ encode_params (list_records_params None None None None
                        (Some [[("field", "Name"); ("direction", "asc")]])
                        None None None None)
       = [("sort[0][field]", "Name"); ("sort[0][direction]", "asc")].
Proof.
  intros sort fields ff mr ps view cf tz ul Hwf without params.
  assert (E : params = (without ++ sort_entries sort)%list).
  { unfold params, without, list_records_params.
    change (if_truthy None set_sort ?d) with d.
    destruct sort as [|obj sort]; [symmetry; apply app_nil_r|].
    change (if_truthy (Some (obj :: sort)) set_sort ?d) with (set_sort (obj :: sort) d).
    apply set_sort_appends; [assumption|].
    apply (list_records_params_keys_not_sort fields ff mr ps view cf tz ul). }
  assert (E' : encode_params params = (encode_params without ++ sort_pairs sort)%list).
  { now rewrite E, encode_params_app, encode_sort_entries. }
  repeat split; try assumption.
  intros i obj k v Hi Hin. rewrite E'. apply in_or_app. right.
  unfold sort_pairs. apply in_flat_map. exists (i, obj). split.
  - apply (enumerate_nth sort 0 i obj Hi).
  - simpl. change (sort_key i k, v) with ((fun kv => (sort_key i (fst kv), snd kv)) (k, v)).
    now apply in_map.
Qed.

Lemma sort_is_encoded_by_index_and_key_witness :
  Forall well_formed [[("field", "Name"); ("direction", "asc")]]
  /\ list_records_params None None None None
       (Some [[("field", "Name"); ("direction", "asc")]]) None None None None
     = [("sort[0][field]", PStr "Name"); ("sort[0][direction]", PStr "asc")].
Proof.
  assert (Hwf : Forall well_formed [[("field", "Name"); ("direction", "asc")]]).
  { repeat constructor; simpl; intuition discriminate. }
  split; [exact Hwf|].
  exact (proj1 (sort_is_encoded_by_index_and_key
                  [[("field", "Name"); ("direction", "asc")]]
                  None None None None None None None None Hwf)).
Defined.

(** ** The broker client *)

Lemma after_after (w : World) (a b : list event) :
  after (after w a) b = after w (a ++ b)%list.
Proof. unfold after. simpl. now rewrite app_assoc. Qed.

Lemma get_connection_credentials_unconfigured (w : World) :
  configured w = false ->
  get_connection_credentials w
  = (Raise (ValueError
              ("Missing required Nango environment variables: "
                 ++ join ", " (missing_vars (environ w "NANGO_CONNECTION_ID")
                                 (environ w "NANGO_INTEGRATION_ID")
                                 (environ w "NANGO_BASE_URL")
                                 (environ w "NANGO_SECRET_KEY")))),
     after w [Enter_get_connection_credentials]).
Proof.
  intros Hc. unfold configured in Hc.
  unfold get_connection_credentials, bind, emit, os_environ_get.
  cbn [environ after]. now rewrite Hc.
Qed.

Lemma get_connection_credentials_configured (w : World) :
  configured w = true ->
  get_connection_credentials w
  = (broker_outcome w,
     after w [Enter_get_connection_credentials; Requests_get (broker_request w)]).
Proof.
  intros Hc. unfold configured in Hc.
  unfold get_connection_credentials, bind, emit, os_environ_get.
  cbn [environ after]. rewrite Hc. cbn [negb].
  unfold try_except, bind, requests_get, perform, lift, broker_outcome, broker_request.
  simpl. rewrite after_after. simpl.
  destruct (network w _ _) as [r|msg]; [|reflexivity].
  unfold raise_for_status, response_json.
  destruct (_ && _)%bool; [reflexivity|].
  destruct (_ && _)%bool; [reflexivity|].
  destruct (json r); reflexivity.
Qed.

(** C5: when one of the four Nango variables is unset or empty,
    [get_connection_credentials] raises before it sends anything, and the
    message lists the missing variables in their fixed order: each of the
    four names occurs in the message exactly when its variable is missing. *)
Theorem missing_configuration_is_named :
  forall w : World,
    configured w = false ->
    let missing := missing_vars (environ w "NANGO_CONNECTION_ID")
                     (environ w "NANGO_INTEGRATION_ID")
                     (environ w "NANGO_BASE_URL")
                     (environ w "NANGO_SECRET_KEY") in
    let message := "Missing required Nango environment variables: "
                     ++ join ", " missing in
    get_connection_credentials w
      = (Raise (ValueError message), after w [Enter_get_connection_credentials])
    /\ missing <> []
    /\ forall name,
        In name ["NANGO_CONNECTION_ID"; "NANGO_INTEGRATION_ID";
                 "NANGO_BASE_URL"; "NANGO_SECRET_KEY"] ->
        contains name message = negb (truth (environ w name))
        /\ (In name missing <-> truth (environ w name) = false).
Proof.
  intros w Hc missing message.
  split; [now apply get_connection_credentials_unconfigured|].
  unfold configured in Hc. subst message missing.
  destruct (environ w "NANGO_CONNECTION_ID") as [[|? ?]|] eqn:E1;
    destruct (environ w "NANGO_INTEGRATION_ID") as [[|? ?]|] eqn:E2;
    destruct (environ w "NANGO_BASE_URL") as [[|? ?]|] eqn:E3;
    destruct (environ w "NANGO_SECRET_KEY") as [[|? ?]|] eqn:E4;
    try discriminate Hc;
    (split; [discriminate|]);
    intros name [<-|[<-|[<-|[<-|[]]]]];
    rewrite ?E1, ?E2, ?E3, ?E4;
    (split; [vm_compute; reflexivity|]);
    cbn; split; intros H; try reflexivity; try discriminate H;
    repeat (destruct H as [H|H]; try discriminate H); try contradiction; auto 6.
Qed.

Lemma missing_configuration_is_named_witness :
  configured Examples.unconfigured_world = false
  /\ get_connection_credentials Examples.unconfigured_world
     = (Raise (ValueError "Missing required Nango environment variables: NANGO_CONNECTION_ID, NANGO_SECRET_KEY"),
        after Examples.unconfigured_world [Enter_get_connection_credentials]).
Proof.
  split; [reflexivity|].
  exact (proj1 (missing_configuration_is_named Examples.unconfigured_world eq_refl)).
Defined.

(** ** The token provider *)

Lemma get_airtable_token_unfolded (w : World) :
  get_airtable_token w
  = match get_connection_credentials w with
    | (Ok credentials, w1) =>
        (match access_token_of credentials with
         | Ok token => Ok token
         | Raise e =>
             Raise (ValueError ("Failed to get authentication token from Nango: "
                                  ++ str_exn e))
         end, w1)
    | (Raise e, w1) =>
        (Raise (ValueError ("Failed to get authentication token from Nango: "
                              ++ str_exn e)), w1)
    end.
Proof.
  unfold get_airtable_token, try_except, bind, lift, ret, raise, access_token_of.
  destruct (get_connection_credentials w) as [[credentials|e] w1]; [|reflexivity].
  destruct (py_in "credentials" credentials) as [[|]|e1]; [| |reflexivity].
  - destruct (py_getitem credentials "credentials") as [inner|e2]; [|reflexivity].
    destruct (py_in "access_token" inner) as [[|]|e3]; [| |reflexivity].
    + destruct (py_getitem inner "access_token"); reflexivity.
    + destruct (py_in "access_token" credentials) as [[|]|e4]; [| |reflexivity].
      * destruct (py_getitem credentials "access_token"); reflexivity.
      * reflexivity.
  - destruct (py_in "access_token" credentials) as [[|]|e4]; [| |reflexivity].
    + destruct (py_getitem credentials "access_token"); reflexivity.
    + reflexivity.
Qed.

(** X18: on every payload on which the shape test is defined,
    [get_airtable_token] returns the nested [credentials.access_token] when
    it is there, else the flat [access_token] when it is there, and else
    raises with the message [No access_token found ...]; on every other
    payload the test itself raises a [TypeError], and the token provider
    raises with that text instead. *)
Theorem token_by_shape_where_test_is_defined :
  forall (w w1 : World) (payload : pyval),
    get_connection_credentials w = (Ok payload, w1) ->
    if shape_test_defined payload then
      get_airtable_token w
      = (match token_by_shape payload with
         | Some token => Ok token
         | None => Raise (ValueError no_token_message)
         end, w1)
    else
      exists m,
        access_token_of payload = Raise (TypeError m)
        /\ get_airtable_token w
           = (Raise (ValueError ("Failed to get authentication token from Nango: "
                                   ++ m)), w1).
Proof.
  intros w w1 payload Hgcc.
  rewrite get_airtable_token_unfolded, Hgcc.
  assert (Hcut : forall r : result pyval,
             (exists m, r = Raise (TypeError m)) ->
             exists m, r = Raise (TypeError m)
               /\ (match r with
                   | Ok token => Ok token
                   | Raise e =>
                       Raise (ValueError
                                ("Failed to get authentication token from Nango: "
                                   ++ str_exn e))
                   end, w1)
                  = (Raise (ValueError
                              ("Failed to get authentication token from Nango: "
                                 ++ m)), w1)).
  { intros r [m ->]. exists m. split; reflexivity. }
  destruct payload as [| |z|s|l|d].
  - apply Hcut. eexists. reflexivity.
  - apply Hcut. eexists. reflexivity.
  - apply Hcut. eexists. reflexivity.
  - unfold shape_test_defined, lacks, access_token_of. cbn [py_in py_getitem].
    destruct (contains "credentials" s); cbn [andb].
    + apply Hcut. eexists. reflexivity.
    + destruct (contains "access_token" s); [|reflexivity].
      apply Hcut. eexists. reflexivity.
  - unfold shape_test_defined, lacks, access_token_of. cbn [py_in py_getitem].
    destruct (existsb _ l); cbn [andb].
    + apply Hcut. eexists. reflexivity.
    + destruct (existsb _ l); [|reflexivity].
      apply Hcut. eexists. reflexivity.
  - unfold shape_test_defined, access_token_of, token_by_shape.
    cbn [py_in py_getitem]. unfold dict_contains.
    destruct (dict_get "credentials" d) as [inner|] eqn:Ec.
    + destruct inner as [| |z|s|l|c]; unfold lacks; cbn [py_in py_getitem].
      * apply Hcut. eexists. reflexivity.
      * apply Hcut. eexists. reflexivity.
      * apply Hcut. eexists. reflexivity.
      * destruct (contains "access_token" s).
        -- apply Hcut. eexists. reflexivity.
        -- destruct (dict_get "access_token" d); reflexivity.
      * destruct (existsb _ l).
        -- apply Hcut. eexists. reflexivity.
        -- destruct (dict_get "access_token" d); reflexivity.
      * unfold dict_contains.
        destruct (dict_get "access_token" c); [reflexivity|].
        destruct (dict_get "access_token" d); reflexivity.
    + destruct (dict_get "access_token" d); reflexivity.
Qed.

Lemma token_by_shape_where_test_is_defined_witness :
  fst (get_airtable_token
         (Examples.world Examples.nested_payload Examples.invalid_field))
    = Ok (PStr "tok123")
  /\ fst (get_airtable_token
            (Examples.world Examples.text_credentials_payload Examples.invalid_field))
     = Ok (PStr "tok456")
  /\ fst (get_airtable_token
            (Examples.world (PList [PInt 1; PNone]) Examples.invalid_field))
     = Raise (ValueError no_token_message).
Proof.
  split; [|split].
  - exact (f_equal fst (token_by_shape_where_test_is_defined
             (Examples.world Examples.nested_payload Examples.invalid_field) _
             Examples.nested_payload eq_refl)).
  - exact (f_equal fst (token_by_shape_where_test_is_defined
             (Examples.world Examples.text_credentials_payload Examples.invalid_field)
             _ Examples.text_credentials_payload eq_refl)).
  - exact (f_equal fst (token_by_shape_where_test_is_defined
             (Examples.world (PList [PInt 1; PNone]) Examples.invalid_field) _
             (PList [PInt 1; PNone]) eq_refl)).
Defined.

(** C4 (the code departs from it): the broker payload [{"credentials": null,
    "access_token": "tok456"}] has the flat field, yet [get_airtable_token]
    raises, and its message does not contain [No access_token found]: the
    test of the nested shape raises on [None] before the flat one is tried. *)
Lemma flat_token_behind_null_credentials :
  token_by_shape Examples.null_credentials_payload = Some (PStr "tok456")
  /\ fst (get_connection_credentials
            (Examples.world Examples.null_credentials_payload Examples.invalid_field))
     = Ok Examples.null_credentials_payload
  /\ fst (get_airtable_token
            (Examples.world Examples.null_credentials_payload Examples.invalid_field))
     = Raise (ValueError "Failed to get authentication token from Nango: argument of type 'NoneType' is not iterable")
  /\ contains "No access_token found"
       "Failed to get authentication token from Nango: argument of type 'NoneType' is not iterable"
     = false.
Proof. repeat split; vm_compute; reflexivity. Qed.

(** ** The gateway *)

Lemma handle_api_request_responded (method url : string) (kw : kwargs)
    (w w1 w2 : World) (headers : dict string) (r : Response) :
  get_headers w = (Ok headers, w1) ->
  requests_request method url (merge_headers headers kw) kw w1 = (Ok r, w2) ->
  handle_api_request method url kw w = (response_outcome r, w2).
Proof.
  intros Hh Hr. unfold handle_api_request, try_except, bind.
  rewrite Hh, Hr. unfold lift, response_outcome, raise_for_status, response_json.
  destruct (_ && _)%bool; [reflexivity|].
  destruct (_ && _)%bool; [reflexivity|].
  destruct (negb (truth (content r))); [reflexivity|].
  destruct (json r); reflexivity.
Qed.

Lemma http_error_detail_by_shape (r : Response) :
  http_error_detail r
  = ("HTTP " ++ str_int (status_code r) ++ ": " ++ reason r) ++ " - " ++ detail_by_shape r.
Proof.
  unfold http_error_detail, detail_by_shape, response_json, py_get.
  destruct (json r) as [[| | | | |body]|m]; try reflexivity.
  destruct (dict_get "error" body) as [[| | | | |err]|]; try reflexivity.
  destruct (dict_get "message" err); reflexivity.
Qed.

(** C2 (as amended): when the API answers with a 4xx or 5xx status,
    [handle_api_request] raises [HTTP {status}: {reason} - {detail}].  The
    detail is [error.message] when the body is a JSON object whose [error]
    member is an object with a [message]; the [str] of the parsed body when
    the body is a JSON object without [error], or with an [error] object
    without [message]; and the raw text of the response otherwise. *)
Theorem http_failure_message :
  forall (method url : string) (kw : kwargs) (w w1 w2 : World)
         (headers : dict string) (r : Response),
    get_headers w = (Ok headers, w1) ->
    requests_request method url (merge_headers headers kw) kw w1 = (Ok r, w2) ->
    (400 <= status_code r < 600)%Z ->
    handle_api_request method url kw w
    = (Raise (ValueError (("HTTP " ++ str_int (status_code r) ++ ": " ++ reason r)
                            ++ " - " ++ detail_by_shape r)), w2).
Proof.
  intros method url kw w w1 w2 headers r Hh Hr Hs.
  rewrite (handle_api_request_responded _ _ _ _ _ _ _ _ Hh Hr).
  rewrite <- http_error_detail_by_shape.
  unfold response_outcome, raise_for_status.
  destruct ((400 <=? status_code r)%Z && (status_code r <? 500)%Z)%bool eqn:E4;
    [reflexivity|].
  destruct ((500 <=? status_code r)%Z && (status_code r <? 600)%Z)%bool eqn:E5;
    [reflexivity|].
  exfalso. apply andb_false_iff in E4, E5. lia.
Qed.

Lemma http_failure_message_witness :
  fst (handle_api_request "GET" Examples.records_url Examples.no_kwargs
         (Examples.world Examples.nested_payload Examples.invalid_field))
    = Raise (ValueError "HTTP 422: Unprocessable Entity - Invalid field")
  /\ contains "422" "HTTP 422: Unprocessable Entity - Invalid field" = true
  /\ contains "Invalid field" "HTTP 422: Unprocessable Entity - Invalid field" = true.
Proof.
  split; [|split; reflexivity].
  refine (f_equal fst
            (http_failure_message "GET" Examples.records_url Examples.no_kwargs
               (Examples.world Examples.nested_payload Examples.invalid_field)
               _ _ _ Examples.invalid_field eq_refl eq_refl _)).
  simpl. lia.
Defined.

(** C2 (as stated, refuted): a 404 whose body is the JSON
    [{"error":"NOT_FOUND"}] parses, and has no [error.message], yet the
    detail is the raw text and not the [str] of the parsed body; and a 304,
    which is not 2xx, does not fail at all. *)
Lemma error_that_is_not_an_object :
  fst (handle_api_request "GET" Examples.records_url Examples.no_kwargs
         (Examples.world Examples.nested_payload Examples.not_found))
    = Raise (ValueError ("HTTP 404: Not Found - " ++ Examples.not_found_text))
  /\ str (PDict [("error", PStr "NOT_FOUND")]) = "{'error': 'NOT_FOUND'}"
  /\ String.eqb Examples.not_found_text "{'error': 'NOT_FOUND'}" = false
  /\ fst (handle_api_request "GET" Examples.records_url Examples.no_kwargs
            (Examples.world Examples.nested_payload Examples.not_modified))
     = Ok (PDict [("success", PBool true)]).
Proof. repeat split; vm_compute; reflexivity. Qed.



(** ** One broker call per invocation *)

Section Silent.
Context {A B : Type}.

Lemma silent_ret (a : A) : silent (ret a).
Proof. now intros w. Qed.

Lemma silent_raise (e : exn) : silent (@raise A e).
Proof. now intros w. Qed.

Lemma silent_lift (r : result A) : silent (lift r).
Proof. now intros w. Qed.

Lemma silent_bind (m : M A) (k : A -> M B) :
  silent m -> (forall a, silent (k a)) -> silent (bind m k).
Proof.
  intros Hm Hk w. unfold bind. specialize (Hm w).
  destruct (m w) as [[a|e] w']; cbn in Hm; subst w'; [apply Hk|reflexivity].
Qed.

Lemma snd_bind_silent (m : M A) (k : A -> M B) (w : World) :
  (forall a, silent (k a)) -> snd (bind m k w) = snd (m w).
Proof.
  intros Hk. unfold bind. destruct (m w) as [[a|e] w']; [apply Hk|reflexivity].
Qed.

Lemma snd_try_except_silent (body : M A) (handler : exn -> M A) (w : World) :
  (forall e, silent (handler e)) ->
  snd (try_except body handler w) = snd (body w).
Proof.
  intros Hh. unfold try_except. destruct (body w) as [[a|e] w']; [reflexivity|apply Hh].
Qed.
End Silent.

Ltac silence :=
  repeat first
    [ apply silent_ret | apply silent_raise | apply silent_lift
    | apply silent_bind
    | match goal with
      | |- silent (if ?b then _ else _) => destruct b
      | |- forall _, _ => intro
      end ].

Lemma get_airtable_token_world (w : World) :
  snd (get_airtable_token w) = snd (get_connection_credentials w).
Proof.
  unfold get_airtable_token.
  rewrite snd_try_except_silent by silence.
  apply snd_bind_silent. silence.
Qed.

Lemma get_airtable_token_raises (w w1 : World) (e : exn) :
  get_airtable_token w = (Raise e, w1) -> exists msg, e = ValueError msg.
Proof.
  unfold get_airtable_token, try_except. intros H.
  match type of H with
  | match ?body with _ => _ end = _ => destruct body as [[tok|e'] w'] eqn:E
  end.
  - discriminate H.
  - unfold raise in H. injection H as <- _. eauto.
Qed.

Lemma get_airtable_token_configured (w w1 : World) (token : pyval) :
  get_airtable_token w = (Ok token, w1) ->
  configured w = true
  /\ w1 = after w [Enter_get_connection_credentials; Requests_get (broker_request w)].
Proof.
  intros H. pose proof (get_airtable_token_world w) as Hw. rewrite H in Hw. cbn [snd] in Hw.
  destruct (configured w) eqn:Hc.
  - rewrite get_connection_credentials_configured in Hw by assumption. now split.
  - exfalso. revert H. unfold get_airtable_token, try_except, bind.
    rewrite get_connection_credentials_unconfigured by assumption.
    unfold raise. discriminate.
Qed.

Lemma get_connection_credentials_world (w : World) :
  snd (get_connection_credentials w)
  = after w (if configured w
             then [Enter_get_connection_credentials; Requests_get (broker_request w)]
             else [Enter_get_connection_credentials]).
Proof.
  destruct (configured w) eqn:Hc.
  - now rewrite get_connection_credentials_configured.
  - now rewrite get_connection_credentials_unconfigured.
Qed.

(** The gateway in terms of the token provider and the network. *)
Lemma handle_api_request_unfolded (method url : string) (kw : kwargs) (w : World) :
  handle_api_request method url kw w
  = match get_airtable_token w with
    | (Raise e, w1) => (Raise (ValueError ("Unexpected error: " ++ str_exn e)), w1)
    | (Ok token, w1) =>
        (match network w1 (trace w1) (api_request method url kw token) with
         | Responded r => response_outcome r
         | Failed msg => Raise (ValueError ("Request failed: " ++ msg))
         end,
         after w1 [Requests_request (api_request method url kw token)])
    end.
Proof.
  destruct (get_airtable_token w) as [[token|e] w1] eqn:E.
  - destruct (network w1 (trace w1) (api_request method url kw token)) as [r|msg] eqn:En.
    + apply handle_api_request_responded
        with (headers := [("Authorization", "Bearer " ++ str token);
                          ("Content-Type", "application/json")]) (w1 := w1).
      * unfold get_headers, bind, ret. now rewrite E.
      * unfold requests_request, perform. fold (api_request method url kw token).
        now rewrite En.
    + unfold handle_api_request, try_except, bind, get_headers, bind, ret.
      rewrite E. unfold requests_request, perform.
      fold (api_request method url kw token). now rewrite En.
  - destruct (get_airtable_token_raises _ _ _ E) as [msg ->].
    unfold handle_api_request, try_except, bind, get_headers, bind.
    now rewrite E.
Qed.

(** C9: every run of [handle_api_request] enters the broker client exactly
    once and sends the broker at most one request (exactly one when the
    configuration is complete), and the API one request when it got a token
    and none otherwise; it changes nothing in the world but the trace, so
    nothing is kept from one run to the next.  Two successful runs
    in a row each make their own broker call, and each API request carries
    the token that its own broker call returned. *)
Theorem broker_called_once_per_invocation :
  (forall (method url : string) (kw : kwargs) (w : World),
      let w' := snd (handle_api_request method url kw w) in
      environ w' = environ w
      /\ network w' = network w
      /\ exists evs,
          trace w' = (trace w ++ evs)%list
          /\ count_event is_enter evs = 1
          /\ count_event is_requests_get evs = (if configured w then 1 else 0)
          /\ count_event is_requests_request evs
             = match fst (get_airtable_token w) with Ok _ => 1 | Raise _ => 0 end)
  /\ (forall (m1 u1 : string) (k1 : kwargs) (m2 u2 : string) (k2 : kwargs)
             (w w1 w2 : World) (v1 v2 : pyval),
         handle_api_request m1 u1 k1 w = (Ok v1, w1) ->
         handle_api_request m2 u2 k2 w1 = (Ok v2, w2) ->
         exists token1 token2,
           fst (get_airtable_token w) = Ok token1
           /\ fst (get_airtable_token w1) = Ok token2
           /\ trace w1
              = (trace w ++ [Enter_get_connection_credentials;
                             Requests_get (broker_request w);
                             Requests_request (api_request m1 u1 k1 token1)])%list
           /\ trace w2
              = (trace w1 ++ [Enter_get_connection_credentials;
                              Requests_get (broker_request w1);
                              Requests_request (api_request m2 u2 k2 token2)])%list).
Proof.
  assert (Hone : forall m u k w v w1,
             handle_api_request m u k w = (Ok v, w1) ->
             exists token,
               fst (get_airtable_token w) = Ok token
               /\ trace w1
                  = (trace w ++ [Enter_get_connection_credentials;
                                 Requests_get (broker_request w);
                                 Requests_request (api_request m u k token)])%list).
  { intros m u k w v w1 H. rewrite handle_api_request_unfolded in H.
    destruct (get_airtable_token w) as [[token|e] w'] eqn:E; [|discriminate H].
    exists token. split; [reflexivity|].
    apply get_airtable_token_configured in E. destruct E as [_ ->].
    injection H as _ <-. rewrite after_after. reflexivity. }
  split.
  - intros method url kw w w'. subst w'. rewrite handle_api_request_unfolded.
    pose proof (get_airtable_token_world w) as Hw.
    rewrite get_connection_credentials_world in Hw.
    destruct (get_airtable_token w) as [[token|e] w1] eqn:E; cbn [snd] in *; subst w1.
    + apply get_airtable_token_configured in E. destruct E as [Hc _].
      rewrite Hc. rewrite after_after. repeat split.
      eexists. split; [reflexivity|]. repeat split; reflexivity.
    + repeat split. eexists. split; [reflexivity|].
      destruct (configured w); repeat split; reflexivity.
  - intros m1 u1 k1 m2 u2 k2 w w1 w2 v1 v2 H1 H2.
    destruct (Hone _ _ _ _ _ _ H1) as [t1 [Ht1 Htr1]].
    destruct (Hone _ _ _ _ _ _ H2) as [t2 [Ht2 Htr2]].
    exists t1, t2. auto.
Qed.

Lemma broker_called_once_per_invocation_witness :
  trace (snd (handle_api_request "GET" Examples.records_url Examples.no_kwargs
                (snd (handle_api_request "GET" Examples.records_url Examples.no_kwargs
                        Examples.rotating_world))))
  = [Enter_get_connection_credentials;
     Requests_get (broker_request Examples.rotating_world);
     Requests_request (api_request "GET" Examples.records_url Examples.no_kwargs
                         (PStr "tok1"));
     Enter_get_connection_credentials;
     Requests_get (broker_request Examples.rotating_world);
     Requests_request (api_request "GET" Examples.records_url Examples.no_kwargs
                         (PStr "tok4"))].
Proof.
  destruct (proj2 broker_called_once_per_invocation
              "GET" Examples.records_url Examples.no_kwargs
              "GET" Examples.records_url Examples.no_kwargs
              Examples.rotating_world _ _ _ _ eq_refl eq_refl)
    as [token1 [token2 [H1 [H2 [Htr1 Htr2]]]]].
  cbv in H1, H2. injection H1 as <-. injection H2 as <-.
  etransitivity; [exact Htr2|]. rewrite Htr1. reflexivity.
Defined.

(** * Further properties of the gateway *)

Lemma prefix_nil (s : string) : String.prefix "" s = true.
Proof. now destruct s. Qed.

Lemma get_airtable_token_by_shape (w w1 : World) (payload : pyval) :
  get_connection_credentials w = (Ok payload, w1) ->
  object_payload payload = true ->
  get_airtable_token w
  = (match token_by_shape payload with
     | Some token => Ok token
     | None => Raise (ValueError no_token_message)
     end, w1).
Proof.
  intros Hgcc Hshape.
  unfold get_airtable_token, try_except, bind. rewrite Hgcc.
  destruct payload as [| | | | |d]; try discriminate Hshape.
  unfold object_payload in Hshape. unfold token_by_shape, lift, py_in, py_getitem.
  unfold dict_contains.
  destruct (dict_get "credentials" d) as [[| | | | |c]|] eqn:Ec;
    try discriminate Hshape; cbn [ret].
  - destruct (dict_get "access_token" c) as [tok|] eqn:Et; [reflexivity|].
    destruct (dict_get "access_token" d) as [tok|] eqn:Ef; reflexivity.
  - destruct (dict_get "access_token" d) as [tok|] eqn:Ef; reflexivity.
Qed.

Lemma get_airtable_token_unconfigured (w : World) :
  configured w = false ->
  get_airtable_token w
  = (Raise (ValueError
              ("Failed to get authentication token from Nango: "
                 ++ "Missing required Nango environment variables: "
                 ++ join ", " (missing_vars (environ w "NANGO_CONNECTION_ID")
                                 (environ w "NANGO_INTEGRATION_ID")
                                 (environ w "NANGO_BASE_URL")
                                 (environ w "NANGO_SECRET_KEY")))),
     after w [Enter_get_connection_credentials]).
Proof.
  intros Hc. unfold get_airtable_token, try_except, bind.
  now rewrite get_connection_credentials_unconfigured.
Qed.

(** X1: whatever [handle_api_request] raises is a [ValueError], and its
    message starts with [HTTP ], with [Request failed: ] or with
    [Unexpected error: ]. *)
Theorem gateway_raises_only_value_errors :
  forall (method url : string) (kw : kwargs) (w w' : World) (e : exn),
    handle_api_request method url kw w = (Raise e, w') ->
    exists msg,
      e = ValueError msg
      /\ (String.prefix "HTTP " msg || String.prefix "Request failed: " msg
          || String.prefix "Unexpected error: " msg)%bool = true.
Proof.
  intros method url kw w w' e H. rewrite handle_api_request_unfolded in H.
  destruct (get_airtable_token w) as [[token|e0] w1].
  - destruct (network w1 (trace w1) (api_request method url kw token)) as [r|m].
    + unfold response_outcome in H.
      destruct (raise_for_status r).
      * destruct (negb (truth (content r))); [discriminate H|].
        destruct (json r); discriminate H.
      * injection H as <- _. eexists. split; [reflexivity|].
        rewrite http_error_detail_by_shape. cbn [append].
        cbn -[str_int detail_by_shape]. now rewrite prefix_nil.
    + injection H as <- _. eexists. split; [reflexivity|].
      cbn. now rewrite prefix_nil.
  - injection H as <- _. eexists. split; [reflexivity|].
    cbn. now rewrite prefix_nil.
Qed.

Lemma gateway_raises_only_value_errors_witness :
  exists msg,
    ValueError "HTTP 422: Unprocessable Entity - Invalid field" = ValueError msg
    /\ (String.prefix "HTTP " msg || String.prefix "Request failed: " msg
        || String.prefix "Unexpected error: " msg)%bool = true.
Proof.
  exact (gateway_raises_only_value_errors "GET" Examples.records_url
           Examples.no_kwargs
           (Examples.world Examples.nested_payload Examples.invalid_field) _ _
           eq_refl).
Defined.

(** X2: when the token was obtained and the API cannot be reached,
    [handle_api_request] raises [Request failed: ] followed by the cause,
    after the one attempt. *)
Theorem transport_failure_is_reported :
  forall (method url : string) (kw : kwargs) (w w1 : World) (token : pyval)
         (cause : string),
    get_airtable_token w = (Ok token, w1) ->
    network w1 (trace w1) (api_request method url kw token) = Failed cause ->
    handle_api_request method url kw w
    = (Raise (ValueError ("Request failed: " ++ cause)),
       after w1 [Requests_request (api_request method url kw token)]).
Proof.
  intros method url kw w w1 token cause Ht Hn.
  rewrite handle_api_request_unfolded, Ht, Hn. reflexivity.
Qed.

Lemma transport_failure_is_reported_witness :
  fst (handle_api_request "GET" Examples.records_url Examples.no_kwargs
         (Examples.offline_api_world Examples.flat_payload))
  = Raise (ValueError "Request failed: Connection refused").
Proof.
  exact (f_equal fst
           (transport_failure_is_reported "GET" Examples.records_url
              Examples.no_kwargs
              (Examples.offline_api_world Examples.flat_payload) _ _ _
              eq_refl eq_refl)).
Defined.

(** X3: with an incomplete configuration [handle_api_request] raises
    [Unexpected error: Failed to get authentication token from Nango: Missing
    required Nango environment variables: ...] with the missing names, and
    sends nothing, neither to the broker nor to the API. *)
Theorem unconfigured_gateway_sends_nothing :
  forall (method url : string) (kw : kwargs) (w : World),
    configured w = false ->
    handle_api_request method url kw w
    = (Raise (ValueError
                ("Unexpected error: "
                   ++ "Failed to get authentication token from Nango: "
                   ++ "Missing required Nango environment variables: "
                   ++ join ", " (missing_vars (environ w "NANGO_CONNECTION_ID")
                                   (environ w "NANGO_INTEGRATION_ID")
                                   (environ w "NANGO_BASE_URL")
                                   (environ w "NANGO_SECRET_KEY")))),
       after w [Enter_get_connection_credentials]).
Proof.
  intros method url kw w Hc.
  rewrite handle_api_request_unfolded, get_airtable_token_unconfigured by assumption.
  reflexivity.
Qed.

Lemma unconfigured_gateway_sends_nothing_witness :
  handle_api_request "GET" Examples.records_url Examples.no_kwargs
    Examples.unconfigured_world
  = (Raise (ValueError "Unexpected error: Failed to get authentication token from Nango: Missing required Nango environment variables: NANGO_CONNECTION_ID, NANGO_SECRET_KEY"),
     after Examples.unconfigured_world [Enter_get_connection_credentials]).
Proof.
  exact (unconfigured_gateway_sends_nothing "GET" Examples.records_url
           Examples.no_kwargs Examples.unconfigured_world eq_refl).
Defined.

(** X4: whatever [get_airtable_token] raises is a [ValueError] whose message
    is [Failed to get authentication token from Nango: ] followed by the
    text of the cause, which is what [get_connection_credentials] raised or
    what the shape test raised on the payload it returned. *)
Theorem token_failure_is_wrapped :
  forall (w w1 : World) (e : exn),
    get_airtable_token w = (Raise e, w1) ->
    exists cause : exn,
      e = ValueError ("Failed to get authentication token from Nango: "
                        ++ str_exn cause)
      /\ (get_connection_credentials w = (Raise cause, w1)
          \/ exists credentials,
               get_connection_credentials w = (Ok credentials, w1)
               /\ access_token_of credentials = Raise cause).
Proof.
  intros w w1 e H. rewrite get_airtable_token_unfolded in H.
  destruct (get_connection_credentials w) as [[credentials|cause] w'].
  - destruct (access_token_of credentials) as [token|cause] eqn:E;
      [discriminate H|].
    injection H as <- <-. exists cause. split; [reflexivity|].
    right. exists credentials. now split.
  - injection H as <- <-. exists cause. split; [reflexivity|]. now left.
Qed.

Lemma token_failure_is_wrapped_witness :
  exists cause : exn,
    ValueError "Failed to get authentication token from Nango: argument of type 'NoneType' is not iterable"
    = ValueError ("Failed to get authentication token from Nango: " ++ str_exn cause)
    /\ (get_connection_credentials
          (Examples.world Examples.null_credentials_payload Examples.invalid_field)
        = (Raise cause,
           snd (get_connection_credentials
                  (Examples.world Examples.null_credentials_payload
                     Examples.invalid_field)))
        \/ exists credentials,
             get_connection_credentials
               (Examples.world Examples.null_credentials_payload
                  Examples.invalid_field)
             = (Ok credentials,
                snd (get_connection_credentials
                       (Examples.world Examples.null_credentials_payload
                          Examples.invalid_field)))
             /\ access_token_of credentials = Raise cause).
Proof.
  exact (token_failure_is_wrapped
           (Examples.world Examples.null_credentials_payload Examples.invalid_field)
           _ _ eq_refl).
Defined.

(** ** The broker's answers *)

(** X5: when the broker answers with a 4xx or 5xx status,
    [get_connection_credentials] raises [Failed to get Nango credentials: ]
    followed by the status, [Client Error] or [Server Error], the reason and
    the URL, after its one request. *)
Theorem broker_error_status_is_reported :
  forall (w : World) (r : Response),
    configured w = true ->
    network w (trace w ++ [Enter_get_connection_credentials])%list (broker_request w)
      = Responded r ->
    (400 <= status_code r < 600)%Z ->
    get_connection_credentials w
    = (Raise (ValueError
                ("Failed to get Nango credentials: "
                   ++ str_int (status_code r)
                   ++ (if (status_code r <? 500)%Z
                       then " Client Error: " else " Server Error: ")
                   ++ reason r ++ " for url: " ++ url r)),
       after w [Enter_get_connection_credentials; Requests_get (broker_request w)]).
Proof.
  intros w r Hc Hn Hs.
  rewrite get_connection_credentials_configured by assumption.
  unfold broker_outcome. rewrite Hn. unfold raise_for_status.
  destruct (status_code r <? 500)%Z eqn:E5.
  - replace (400 <=? status_code r)%Z with true by (symmetry; apply Z.leb_le; lia).
    reflexivity.
  - replace (400 <=? status_code r)%Z with true by (symmetry; apply Z.leb_le; lia).
    replace (500 <=? status_code r)%Z with true
      by (symmetry; apply Z.leb_le; apply Z.ltb_ge in E5; lia).
    replace (status_code r <? 600)%Z with true by (symmetry; apply Z.ltb_lt; lia).
    reflexivity.
Qed.

Lemma broker_error_status_is_reported_witness :
  fst (get_connection_credentials (Examples.broker_world Examples.unauthorized))
  = Raise (ValueError "Failed to get Nango credentials: 401 Client Error: Unauthorized for url: https://nango.example/connection/conn-1").
Proof.
  refine (f_equal fst
            (broker_error_status_is_reported
               (Examples.broker_world Examples.unauthorized) Examples.unauthorized
               eq_refl eq_refl _)).
  simpl. lia.
Defined.

(** X6: when the broker cannot be reached, [handle_api_request] raises the
    cause wrapped three times, [Unexpected error: Failed to get
    authentication token from Nango: Failed to get Nango credentials: ...],
    and sends nothing to the API. *)
Theorem unreachable_broker_stops_the_gateway :
  forall (method url : string) (kw : kwargs) (w : World) (cause : string),
    configured w = true ->
    network w (trace w ++ [Enter_get_connection_credentials])%list (broker_request w)
      = Failed cause ->
    handle_api_request method url kw w
    = (Raise (ValueError
                ("Unexpected error: "
                   ++ "Failed to get authentication token from Nango: "
                   ++ "Failed to get Nango credentials: " ++ cause)),
       after w [Enter_get_connection_credentials; Requests_get (broker_request w)]).
Proof.
  intros method url kw w cause Hc Hn.
  rewrite handle_api_request_unfolded.
  unfold get_airtable_token, try_except, bind.
  rewrite get_connection_credentials_configured by assumption.
  unfold broker_outcome. rewrite Hn. reflexivity.
Qed.

Lemma unreachable_broker_stops_the_gateway_witness :
  handle_api_request "GET" Examples.records_url Examples.no_kwargs
    Examples.offline_world
  = (Raise (ValueError "Unexpected error: Failed to get authentication token from Nango: Failed to get Nango credentials: Connection refused"),
     after Examples.offline_world
       [Enter_get_connection_credentials;
        Requests_get (broker_request Examples.offline_world)]).
Proof.
  exact (unreachable_broker_stops_the_gateway "GET" Examples.records_url
           Examples.no_kwargs Examples.offline_world "Connection refused"
           eq_refl eq_refl).
Defined.

(** X7: when the broker answers with a status outside 400..599 and a body
    that parses as JSON, [get_connection_credentials] returns the parsed
    value as it is, whatever its shape. *)
Theorem broker_payload_is_returned_verbatim :
  forall (w : World) (r : Response) (payload : pyval),
    configured w = true ->
    network w (trace w ++ [Enter_get_connection_credentials])%list (broker_request w)
      = Responded r ->
    (status_code r < 400 \/ 600 <= status_code r)%Z ->
    json r = JsonValue payload ->
    get_connection_credentials w
    = (Ok payload,
       after w [Enter_get_connection_credentials; Requests_get (broker_request w)]).
Proof.
  intros w r payload Hc Hn Hs Hj.
  rewrite get_connection_credentials_configured by assumption.
  unfold broker_outcome. rewrite Hn, Hj. unfold raise_for_status.
  destruct ((400 <=? status_code r)%Z && (status_code r <? 500)%Z)%bool eqn:E4;
    [apply andb_true_iff in E4; lia|].
  destruct ((500 <=? status_code r)%Z && (status_code r <? 600)%Z)%bool eqn:E5;
    [apply andb_true_iff in E5; lia|].
  reflexivity.
Qed.

Lemma broker_payload_is_returned_verbatim_witness :
  fst (get_connection_credentials
         (Examples.broker_world (Examples.ok_json (PList [PInt 1; PNone]))))
  = Ok (PList [PInt 1; PNone]).
Proof.
  refine (f_equal fst
            (broker_payload_is_returned_verbatim
               (Examples.broker_world (Examples.ok_json (PList [PInt 1; PNone])))
               (Examples.ok_json (PList [PInt 1; PNone])) (PList [PInt 1; PNone])
               eq_refl eq_refl _ eq_refl)).
  left. simpl. lia.
Defined.

(** ** Statuses that are no errors *)



(** ** Headers *)

Lemma dict_get_absent {V} (k : string) (d : dict V) :
  ~ In k (keys d) <-> dict_get k d = None.
Proof.
  induction d as [|[k' v] d IH]; simpl; [tauto|].
  destruct (String.eqb k k') eqn:E.
  - apply String.eqb_eq in E. subst. split; [tauto|discriminate].
  - apply String.eqb_neq in E. rewrite <- IH. split; [tauto|].
    intros H [Heq|Hin]; [now apply E|now apply H].
Qed.

Lemma dict_update_get {V} (k : string) (d other : dict V) :
  NoDup (keys other) ->
  dict_get k (dict_update d other)
  = match dict_get k other with
    | Some v => Some v
    | None => dict_get k d
    end.
Proof.
  unfold dict_update. revert d.
  induction other as [|[k1 v1] other IH]; intros d Hnd; [reflexivity|].
  inversion Hnd as [|? ? Hk1 Hrest]; subst. simpl.
  rewrite IH by assumption.
  destruct (String.eqb k k1) eqn:E.
  - apply String.eqb_eq in E. subst k1.
    apply dict_get_absent in Hk1. rewrite Hk1. apply dict_get_set_same.
  - now rewrite dict_get_set_other.
Qed.

Lemma dict_update_keys {V} (d other : dict V) :
  exists rest, keys (dict_update d other) = (keys d ++ rest)%list.
Proof.
  unfold dict_update. revert d.
  induction other as [|[k1 v1] other IH]; intros d; simpl.
  - exists []. now rewrite app_nil_r.
  - destruct (IH (dict_set k1 v1 d)) as [rest Hrest]. rewrite Hrest.
    rewrite keys_dict_set. destruct (existsb _ _); [now exists rest|].
    exists ([k1] ++ rest)%list. now rewrite app_assoc.
Qed.

(** X9: headers the caller passes to [handle_api_request] override the two
    default ones under the same name and are added under a new name; the
    default headers keep their places at the front, and without such an
    argument the headers are the default ones. *)
Theorem caller_headers_override_defaults :
  forall (headers extra : dict string) (params : option (dict pyval))
         (body : option pyval),
    well_formed extra ->
    (forall name,
        dict_get name (merge_headers headers (mkKwargs params body (Some extra)))
        = match dict_get name extra with
          | Some value => Some value
          | None => dict_get name headers
          end)
    /\ (exists rest,
           keys (merge_headers headers (mkKwargs params body (Some extra)))
           = (keys headers ++ rest)%list)
    /\ merge_headers headers (mkKwargs params body None) = headers.
Proof.
  intros headers extra params body Hwf. unfold merge_headers. cbn [kw_headers].
  split; [|split].
  - intros name. now apply dict_update_get.
  - apply dict_update_keys.
  - reflexivity.
Qed.

Lemma caller_headers_override_defaults_witness :
  merge_headers [("Authorization", "Bearer tok123");
                 ("Content-Type", "application/json")]
    (mkKwargs None None (Some [("Content-Type", "text/csv"); ("X-Trace", "1")]))
  = [("Authorization", "Bearer tok123"); ("Content-Type", "text/csv");
     ("X-Trace", "1")]
  /\ forall name,
      dict_get name
        (merge_headers [("Authorization", "Bearer tok123");
                        ("Content-Type", "application/json")]
           (mkKwargs None None (Some [("Content-Type", "text/csv"); ("X-Trace", "1")])))
      = match dict_get name [("Content-Type", "text/csv"); ("X-Trace", "1")] with
        | Some value => Some value
        | None => dict_get name [("Authorization", "Bearer tok123");
                                 ("Content-Type", "application/json")]
        end.
Proof.
  split; [reflexivity|].
  refine (proj1 (caller_headers_override_defaults
                   [("Authorization", "Bearer tok123");
                    ("Content-Type", "application/json")]
                   [("Content-Type", "text/csv"); ("X-Trace", "1")] None None _)).
  repeat constructor; simpl; intuition discriminate.
Defined.

(** X10: the token of the broker's answer reaches the API.  When the
    payload has one of the two accepted shapes and the caller passes no
    headers, the one request [handle_api_request] sends after the broker
    call has the method, URL, parameters and body it was given, and the
    headers [Authorization: Bearer ] with the [str] of the token and
    [Content-Type: application/json]. *)
Theorem token_reaches_the_api :
  forall (method url : string) (params : option (dict pyval)) (body : option pyval)
         (w w1 : World) (payload token : pyval),
    get_connection_credentials w = (Ok payload, w1) ->
    object_payload payload = true ->
    token_by_shape payload = Some token ->
    trace (snd (handle_api_request method url (mkKwargs params body None) w))
    = (trace w1
         ++ [Requests_request
               (mkRequest method url
                  [("Authorization", ("Bearer " ++ str token)%string);
                   ("Content-Type", "application/json")]
                  params body)])%list.
Proof.
  intros method url params body w w1 payload token Hgcc Hshape Htok.
  rewrite handle_api_request_unfolded.
  rewrite (get_airtable_token_by_shape _ _ _ Hgcc Hshape), Htok.
  reflexivity.
Qed.

Lemma token_reaches_the_api_witness :
  trace (snd (list_records "app1" "T" (Some ["Name"]) None None None None None
                None None None
                (Examples.world (PDict [("access_token", PInt 7)])
                   Examples.empty_ok)))
  = [Enter_get_connection_credentials;
     Requests_get (broker_request
                     (Examples.world (PDict [("access_token", PInt 7)])
                        Examples.empty_ok));
     Requests_request
       (mkRequest "GET" "https://api.airtable.com/v0/app1/T"
          [("Authorization", "Bearer 7"); ("Content-Type", "application/json")]
          (Some [("fields[]", PStr "Name")]) None)].
Proof.
  exact (token_reaches_the_api "GET" "https://api.airtable.com/v0/app1/T"
           (Some [("fields[]", PStr "Name")]) None
           (Examples.world (PDict [("access_token", PInt 7)]) Examples.empty_ok)
           _ (PDict [("access_token", PInt 7)]) (PInt 7)
           eq_refl eq_refl eq_refl).
Defined.

(** * Further properties of the encoders *)

Lemma encode_strs (key : string) (xs : list string) :
  encode_params [(key, strs xs)] = map (pair key) xs.
Proof.
  unfold encode_params, strs. simpl. rewrite app_nil_r.
  induction xs as [|x xs IH]; simpl; [reflexivity|]. now rewrite IH.
Qed.

(** X11: an [include] list is passed whole under the one key [include], so
    the query has one [include] pair per element, in order, and none for an
    empty or missing list; so it is in [get_base_schema],
    [get_base_collaborators], [list_views], [get_view_metadata],
    [get_workspace_collaborators], [get_enterprise] and [get_user_by_id]. *)
Theorem include_gives_one_pair_per_element :
  forall include : option (list string),
    let pairs := map (pair "include")
                   (match include with Some xs => xs | None => [] end) in
    encode_params (get_base_schema_params include) = pairs
    /\ encode_params (get_base_collaborators_params include) = pairs
    /\ encode_params (list_views_params include) = pairs
    /\ encode_params (get_view_metadata_params include) = pairs
    /\ encode_params (get_workspace_collaborators_params include) = pairs
    /\ encode_params (get_enterprise_params include) = pairs
    /\ encode_params (get_user_by_id_params include) = pairs.
Proof.
  intros [[|x xs]|]; cbv zeta; repeat apply conj; try reflexivity;
    apply (encode_strs "include" (x :: xs)).
Qed.

(** X12: [delete_multiple_records] passes the list of ids whole under
    [records[]], so the query has one [records[]] pair per id, in order. *)
Theorem delete_multiple_records_one_pair_per_id :
  forall record_ids : list string,
    encode_params (delete_multiple_records_params record_ids)
    = map (pair "records[]") record_ids.
Proof. intros record_ids. apply encode_strs. Qed.

Lemma with_key_encode_scalar (k : string) (v : pyval) (d : dict pyval) :
  match v with PNone | PList _ | PDict _ => False | _ => True end ->
  NoDup (keys d) -> dict_get k d = Some v ->
  with_key k (encode_params d) = [(k, str v)].
Proof.
  intros Hv.
  induction d as [|[k' v'] d IH]; intros Hnd Hget; [discriminate|].
  inversion Hnd as [|? ? Hk' Hd]; subst.
  change ((k', v') :: d) with ([(k', v')] ++ d)%list.
  rewrite encode_params_app, with_key_app.
  simpl in Hget.
  destruct (String.eqb k k') eqn:E.
  - apply String.eqb_eq in E. subst k'. injection Hget as ->.
    rewrite (with_key_absent k d) by exact Hk'.
    unfold with_key, encode_params.
    destruct v; try contradiction; simpl; now rewrite String.eqb_refl.
  - rewrite with_key_entry_other by assumption. apply IH; assumption.
Qed.

Ltac own_key :=
  unfold list_records_params; skip_other_keys;
  unfold if_truthy at 1; unfold truth, truthy_Z; cbn [truthy_string];
  repeat match goal with
         | H : (_ =? 0)%Z = _ |- _ => rewrite H; cbn [negb]
         end;
  try rewrite dict_get_set_same; try reflexivity;
  skip_other_keys; reflexivity.

Ltac sent v :=
  apply (with_key_encode_scalar _ v);
  [exact I | apply list_records_params_NoDup | own_key].

Ltac not_sent := apply with_key_absent; apply dict_get_absent; own_key.

(** X13: each scalar argument of [list_records] that is set and truthy
    gives exactly one pair of the query, under its own key and with its
    value, and gives none when it is unset, zero or empty, whatever the
    [fields] and [sort] arguments are. *)
Theorem list_records_scalars_sent_once :
  forall fields filter_by_formula max_records page_size sort
         view cell_format time_zone user_locale,
    let query := encode_params
                   (list_records_params fields filter_by_formula max_records
                      page_size sort view cell_format time_zone user_locale) in
    let text key (x : option string) :=
      match x with
      | Some (String c s) => [(key, String c s)]
      | _ => []
      end in
    let number key (x : option Z) :=
      match x with
      | Some n => if (n =? 0)%Z then [] else [(key, str_int n)]
      | None => []
      end in
    with_key "filterByFormula" query = text "filterByFormula" filter_by_formula
    /\ with_key "maxRecords" query = number "maxRecords" max_records
    /\ with_key "pageSize" query = number "pageSize" page_size
    /\ with_key "view" query = text "view" view
    /\ with_key "cellFormat" query = text "cellFormat" cell_format
    /\ with_key "timeZone" query = text "timeZone" time_zone
    /\ with_key "userLocale" query = text "userLocale" user_locale.
Proof.
  intros fields ff mr ps sort view cf tz ul. cbv zeta.
  repeat apply conj.
  - destruct ff as [[|c s]|]; [not_sent|sent (PStr (String c s))|not_sent].
  - destruct mr as [n|]; [destruct (n =? 0)%Z eqn:E|];
      [not_sent|sent (PInt n)|not_sent].
  - destruct ps as [n|]; [destruct (n =? 0)%Z eqn:E|];
      [not_sent|sent (PInt n)|not_sent].
  - destruct view as [[|c s]|]; [not_sent|sent (PStr (String c s))|not_sent].
  - destruct cf as [[|c s]|]; [not_sent|sent (PStr (String c s))|not_sent].
  - destruct tz as [[|c s]|]; [not_sent|sent (PStr (String c s))|not_sent].
  - destruct ul as [[|c s]|]; [not_sent|sent (PStr (String c s))|not_sent].
Qed.

(** X14: [list_comments] sends [pageSize] whenever [page_size] is set, zero
    included, and [list_webhook_payloads] does the same for [cursor] and
    [limit]; only [None] leaves the key out.  The [offset] of [list_comments]
    is left out when empty. *)
Theorem zero_is_sent_by_comments_and_payloads :
  forall (page_size cursor limit : option Z) (offset : option string),
    let number key (x : option Z) :=
      match x with
      | Some n => [(key, str_int n)]
      | None => []
      end in
    encode_params (list_comments_params page_size offset)
    = (number "pageSize" page_size
         ++ match offset with
            | Some (String c s) => [("offset", String c s)]
            | _ => []
            end)%list
    /\ encode_params (list_webhook_payloads_params cursor limit)
       = (number "cursor" cursor ++ number "limit" limit)%list
    /\ encode_params (list_comments_params (Some 0%Z) offset)
       <> encode_params (list_comments_params None offset).
Proof.
  intros page_size cursor limit offset. cbv zeta.
  split; [|split].
  - destruct page_size as [n|], offset as [[|c s]|]; reflexivity.
  - destruct cursor as [c|], limit as [l|]; reflexivity.
  - destruct offset as [[|c s]|]; discriminate.
Qed.

(** X15: [add_base_collaborator] always sends a [collaborators] list with
    at most one entry: the user when [user_id] is given and not empty,
    whatever [group_id] is; else the group when [group_id] is given and not
    empty; else the empty list. *)
Theorem collaborator_is_user_before_group :
  forall (user_id group_id : option string) (permission_level : string),
    add_base_collaborator_data user_id group_id permission_level
    = [("collaborators",
        PList
          match user_id, group_id with
          | Some (String c s), _ =>
              [PDict [("user", PDict [("id", PStr (String c s))]);
                      ("permissionLevel", PStr permission_level)]]
          | _, Some (String c s) =>
              [PDict [("group", PDict [("id", PStr (String c s))]);
                      ("permissionLevel", PStr permission_level)]]
          | _, _ => []
          end)].
Proof.
  intros [[|c s]|] [[|c' s']|] permission_level; reflexivity.
Qed.

(** X16: an empty string is sent by [update_table], [update_field] and
    [create_field], which test their optional arguments against [None], and
    is dropped by [create_table], [create_comment], [create_webhook] and
    [list_bases], which test them for truth; with nothing set [update_table]
    and [update_field] send an empty body. *)
Theorem empty_text_sent_or_dropped :
  forall (name type text : string) (other : option string)
         (fields : list (dict pyval)) (options : option (dict pyval)),
    dict_get "name" (update_table_data (Some "") other) = Some (PStr "")
    /\ dict_get "description" (update_table_data other (Some "")) = Some (PStr "")
    /\ dict_get "name" (update_field_data (Some "") other) = Some (PStr "")
    /\ dict_get "description" (update_field_data other (Some "")) = Some (PStr "")
    /\ dict_get "description" (create_field_data name type (Some "") options)
       = Some (PStr "")
    /\ update_table_data None None = []
    /\ update_field_data None None = []
    /\ create_table_data name fields (Some "") = create_table_data name fields None
    /\ create_comment_data text (Some "") = create_comment_data text None
    /\ create_webhook_data (Some "") (Some []) = []
    /\ list_bases_params (Some "") = [].
Proof.
  intros name type text other fields options.
  destruct other, options; repeat apply conj; reflexivity.
Qed.

(** X17: with the four variables set and not empty,
    [get_connection_credentials] sends one GET to
    [{base_url}/connection/{connection_id}] with the query
    [provider_config_key={integration_id}] and [refresh_token=true]; the
    secret key goes in the [Authorization: Bearer ] header only. *)
Theorem broker_request_is_built_from_the_configuration :
  forall (w : World) (connection_id integration_id base_url secret_key : string),
    environ w "NANGO_CONNECTION_ID" = Some connection_id ->
    environ w "NANGO_INTEGRATION_ID" = Some integration_id ->
    environ w "NANGO_BASE_URL" = Some base_url ->
    environ w "NANGO_SECRET_KEY" = Some secret_key ->
    truth connection_id && truth integration_id && truth base_url
      && truth secret_key = true ->
    exists params,
      trace (snd (get_connection_credentials w))
      = (trace w
           ++ [Enter_get_connection_credentials;
               Requests_get
                 (mkRequest "get"
                    (base_url ++ "/connection/" ++ connection_id)%string
                    [("Authorization", ("Bearer " ++ secret_key)%string)]
                    (Some params) None)])%list
      /\ encode_params params
         = [("provider_config_key", integration_id); ("refresh_token", "true")].
Proof.
  intros w c i b s Hc Hi Hb Hs Hall.
  assert (Hconf : configured w = true).
  { unfold configured, all. cbn [forallb]. rewrite Hc, Hi, Hb, Hs.
    destruct c, i, b, s; try discriminate Hall; reflexivity. }
  rewrite get_connection_credentials_configured by assumption.
  unfold broker_request. rewrite Hc, Hi, Hb, Hs.
  eexists. split; reflexivity.
Qed.

Lemma broker_request_is_built_from_the_configuration_witness :
  exists params,
    trace (snd (get_connection_credentials
                  (Examples.world Examples.flat_payload Examples.empty_ok)))
    = [Enter_get_connection_credentials;
       Requests_get
         (mkRequest "get" "https://nango.example/connection/conn-1"
            [("Authorization", "Bearer s3cret")] (Some params) None)]
    /\ encode_params params
       = [("provider_config_key", "airtable"); ("refresh_token", "true")].
Proof.
  exact (broker_request_is_built_from_the_configuration
           (Examples.world Examples.flat_payload Examples.empty_ok)
           "conn-1" "airtable" "https://nango.example" "s3cret"
           eq_refl eq_refl eq_refl eq_refl eq_refl).
Defined.
